(** * ShopSight: the dashboard's orchestration and normalisation logic

    A shallow embedding of the two React components that carry the
    program's logic:

    - [Home] (app/page.tsx): [handleSearch] and [handleProductSelect];
    - [AIAgent] (components/AIAgent.tsx): [handleAgentQuery],
      [loadSuggestions] and the tab and button handlers;

    and of the smaller pieces around them: [parseInsights] of
    [InsightsPanel], [chartData] of [SalesChart], [getPriorityColor], the
    submit rule of [SearchBar] and the highlight of [ProductCard].

    JavaScript values are an inductive type, exceptions an explicit
    completion type, React state a record threaded through a small
    state-and-exception monad, and every [async] handler is split at its
    [await]s into the synchronous part that issues the requests and the
    continuation that runs, atomically, when the awaited promises have
    settled. *)

From Stdlib Require Import PrimFloat String Ascii List Bool Arith Lia.
Import ListNotations.

Set Implicit Arguments.
Set Warnings "-register-all".

(** ** JavaScript values and the coercions the handlers use *)

Module JS.

Local Open Scope string_scope.

(** What [response.json()] can produce, plus [undefined], which a property
    read produces.  An object is the list of its members in the order of
    the JSON text. *)
Inductive value : Type :=
| VUndefined
| VNull
| VBool (b : bool)
| VNumber (n : float)
| VString (s : string)
| VArray (elems : list value)
| VObject (members : list (string * value)).

(** Exceptions the handlers can meet. [TypeError] is a property read on
    [null]/[undefined] or a failed conversion to a primitive; the others
    are the rejection reasons of [fetch], [response.json()],
    [response.text()] and the [Error] that [handleSearch] throws itself. *)
Inductive exn : Type :=
| TypeError
| SyntaxError
| NetworkError
| SearchFailed (status : nat) (errorText : string).

(** The completion of an expression or statement list. *)
Inductive completion (A : Type) : Type :=
| Normal (a : A)
| Throw (e : exn).
Arguments Normal {A} a.
Arguments Throw {A} e.

Definition bind {A B} (c : completion A) (k : A -> completion B) : completion B :=
  match c with
  | Normal a => k a
  | Throw e => Throw e
  end.

Declare Scope js_scope.
Delimit Scope js_scope with js.
Notation "x <- c ;; k" := (bind c (fun x => k))
  (at level 61, c at next level, right associativity) : js_scope.
Local Open Scope js_scope.

(** How a promise settles. *)
Inductive settled (A : Type) : Type :=
| Fulfilled (a : A)
| Rejected (reason : exn).
Arguments Fulfilled {A} a.
Arguments Rejected {A} reason.

(** [await p] *)
Definition await {A} (p : settled A) : completion A :=
  match p with
  | Fulfilled a => Normal a
  | Rejected e => Throw e
  end.

(** A [Response]: its status and what reading its body gives. *)
Record Response : Type := {
  status : nat;
  text : settled string;
  json : settled value
}.

(** [response.ok]: the status is in the range 200-299. *)
Definition ok (r : Response) : bool :=
  ((200 <=? status r)%nat && (status r <=? 299)%nat)%bool.

(** The double quote, and a 200 response whose body is the JSON text [t]
    of the value [v]: for writing example responses. *)
Definition dq : string := String (ascii_of_nat 34) EmptyString.

Definition json_response (t : string) (v : value) : settled Response :=
  Fulfilled {| status := 200; text := Fulfilled t; json := Fulfilled v |}.

(** A request as [fetch] is called: the default method is GET. *)
Record Request : Type := {
  method : string;
  url : string;
  body : option value
}.

Definition GET (u : string) : Request :=
  {| method := "GET"; url := u; body := None |}.
Definition POST (u : string) (b : value) : Request :=
  {| method := "POST"; url := u; body := Some b |}.

(** The own property [key] of a decoded object: when the JSON text names a
    key twice, the later member wins. *)
Fixpoint own_property (key : string) (members : list (string * value)) : option value :=
  match members with
  | [] => None
  | (k, v) :: rest =>
      match own_property key rest with
      | Some w => Some w
      | None => if String.eqb k key then Some v else None
      end
  end.

Definition has_own (key : string) (members : list (string * value)) : bool :=
  match own_property key members with
  | Some _ => true
  | None => false
  end.

(** [v.key], for the keys the handlers read ([analysis],
    [recommendations], [confidence], [next_steps], [segments],
    [insights]): none of them is inherited from a built-in prototype, so
    a primitive or an array gives [undefined], an object gives its own
    property or [undefined], and [null] or [undefined] throw. *)
Definition get_prop (v : value) (key : string) : completion value :=
  match v with
  | VUndefined | VNull => Throw TypeError
  | VObject members =>
      match own_property key members with
      | Some w => Normal w
      | None => Normal VUndefined
      end
  | _ => Normal VUndefined
  end.

Inductive js_type : Type :=
| TUndefined | TObject | TBoolean | TNumber | TString.

(** [typeof v] *)
Definition type_of (v : value) : js_type :=
  match v with
  | VUndefined => TUndefined
  | VNull => TObject
  | VBool _ => TBoolean
  | VNumber _ => TNumber
  | VString _ => TString
  | VArray _ => TObject
  | VObject _ => TObject
  end.

(** [Array.isArray(v)] *)
Definition is_array (v : value) : bool :=
  match v with
  | VArray _ => true
  | _ => false
  end.

(** ToBoolean: the falsy values are [undefined], [null], [false], [+0],
    [-0], [NaN] and the empty string. *)
Definition to_boolean (v : value) : bool :=
  match v with
  | VUndefined | VNull => false
  | VBool b => b
  | VNumber n => negb (PrimFloat.eqb n 0 || negb (PrimFloat.eqb n n))
  | VString s => negb (String.eqb s "")
  | VArray _ | VObject _ => true
  end.

(** [v ?? d] *)
Definition nullish_or (v d : value) : value :=
  match v with
  | VUndefined | VNull => d
  | _ => v
  end.

(** A text is held as its UTF-8 bytes; a text with an unpaired surrogate
    has no such form and is not covered.  The white space and the line
    terminators that [trim] and the class [\s] recognise are TAB, LF, VT,
    FF, CR, SP, U+00A0, U+1680, U+2000 to U+200A, U+2028, U+2029, U+202F,
    U+205F, U+3000 and U+FEFF.  The first six take one byte, U+00A0 takes
    two, the others three.  A byte of a character outside ASCII is 128 or
    more. *)
Definition is_high (c : ascii) : bool := (128 <=? nat_of_ascii c)%nat.

(** TAB, LF, VT, FF, CR and SP. *)
Definition white_space_byte (c : ascii) : bool :=
  match nat_of_ascii c with
  | 9 | 10 | 11 | 12 | 13 | 32 => true
  | _ => false
  end.

(** U+00A0 is C2 A0. *)
Definition white_space_pair (c1 c2 : ascii) : bool :=
  Ascii.eqb c1 (ascii_of_nat 194) && Ascii.eqb c2 (ascii_of_nat 160).

(** U+1680 is E1 9A 80; U+2000 to U+200A are E2 80 80 to E2 80 8A;
    U+2028, U+2029 and U+202F are E2 80 A8, E2 80 A9 and E2 80 AF; U+205F
    is E2 81 9F; U+3000 is E3 80 80; U+FEFF is EF BB BF. *)
Definition white_space_triple (c1 c2 c3 : ascii) : bool :=
  let byte n c := Ascii.eqb c (ascii_of_nat n) in
  byte 225 c1 && byte 154 c2 && byte 128 c3
  || byte 226 c1 && byte 128 c2
     && ((128 <=? nat_of_ascii c3)%nat && (nat_of_ascii c3 <=? 138)%nat
         || byte 168 c3 || byte 169 c3 || byte 175 c3)
  || byte 226 c1 && byte 129 c2 && byte 159 c3
  || byte 227 c1 && byte 128 c2 && byte 128 c3
  || byte 239 c1 && byte 187 c2 && byte 191 c3.

(** The text starts with a white space character. *)
Definition starts_with_white_space (s : string) : bool :=
  match s with
  | String c rest =>
      white_space_byte c
      || match rest with
         | String c2 rest2 =>
             white_space_pair c c2
             || match rest2 with
                | String c3 _ => white_space_triple c c2 c3
                | EmptyString => false
                end
         | EmptyString => false
         end
  | EmptyString => false
  end.

(** [s.trimStart()]: the white space characters at the start are
    dropped, whatever their width. *)
Fixpoint trim_start (s : string) : string :=
  match s with
  | EmptyString => EmptyString
  | String c rest =>
      if white_space_byte c then trim_start rest
      else
        match rest with
        | String c2 rest2 =>
            if white_space_pair c c2 then trim_start rest2
            else
              match rest2 with
              | String c3 rest3 =>
                  if white_space_triple c c2 c3 then trim_start rest3 else s
              | EmptyString => s
              end
        | EmptyString => s
        end
  end.

(** The text holds white space only. *)
Definition blank (s : string) : bool := String.eqb (trim_start s) "".

(** [s.trimEnd()]: the text is cut where what follows is white space
    only.  In a well-formed text that point is the start of a character:
    a continuation byte starts no white space. *)
Fixpoint trim_end (s : string) : string :=
  match s with
  | EmptyString => EmptyString
  | String c rest => if blank s then EmptyString else String c (trim_end rest)
  end.

(** [s.trim()] *)
Definition trim (s : string) : string := trim_end (trim_start s).

(** Texts for the closed examples, from their bytes. *)
Definition text_of_bytes (bytes : list nat) : string :=
  fold_right (fun n s => String (ascii_of_nat n) s) EmptyString bytes.

(** The no-break space U+00A0. *)
Definition no_break_space : string := text_of_bytes [194; 160].

(** [Array.prototype.join] with the default separator, over the
    conversion of one element: [undefined] and [null] give the empty
    text, and the first element that throws ends the join. *)
Section Join.

Variable element_text : value -> completion string.

Fixpoint join (l : list value) : completion string :=
  match l with
  | [] => Normal ""
  | x :: rest =>
      s <- match x with
           | VUndefined | VNull => Normal ""
           | _ => element_text x
           end ;;
      match rest with
      | [] => Normal s
      | _ => r <- join rest ;; Normal (s ++ "," ++ r)
      end
  end.

End Join.

Section Host.

(** Number::toString of the engine.  The standard fixes it only up to the
    choice of the last digit, so it is a parameter of the model. *)
Variable Number_toString : float -> string.

(** [String(v)], that is ToString.  A primitive converts directly.  An
    array converts through [Array.prototype.join].  An object converts
    through OrdinaryToPrimitive: without an own member named [toString]
    the inherited method answers ["[object Object]"]; with one, the member
    (decoded JSON, never callable) is skipped, [valueOf] gives no
    primitive either, and the conversion throws. *)
Fixpoint to_string (v : value) : completion string :=
  match v with
  | VUndefined => Normal "undefined"
  | VNull => Normal "null"
  | VBool true => Normal "true"
  | VBool false => Normal "false"
  | VNumber n => Normal (Number_toString n)
  | VString s => Normal s
  | VArray elems => join to_string elems
  | VObject members =>
      if has_own "toString" members then Throw TypeError
      else Normal "[object Object]"
  end.

(** When [to_string] succeeds, read off the value: an object must not
    shadow [toString], an array must hold only such elements. *)
Fixpoint converts (v : value) : bool :=
  match v with
  | VArray elems => forallb converts elems
  | VObject members => negb (has_own "toString" members)
  | _ => true
  end.

End Host.

(** [to_string] and [converts] agree: the conversion either gives a text,
    or throws a TypeError, and [converts] tells which. *)
Definition to_string_outcome (Number_toString : float -> string) (v : value) : Prop :=
  match to_string Number_toString v with
  | Normal _ => converts v = true
  | Throw e => e = TypeError /\ converts v = false
  end.

(** Induction on values that reaches the elements of an array and the
    members of an object. *)
Section ValueInduction.

Variable P : value -> Prop.
Hypothesis P_undefined : P VUndefined.
Hypothesis P_null : P VNull.
Hypothesis P_bool : forall b, P (VBool b).
Hypothesis P_number : forall n, P (VNumber n).
Hypothesis P_string : forall s, P (VString s).
Hypothesis P_array : forall elems, Forall P elems -> P (VArray elems).
Hypothesis P_object :
  forall members, Forall (fun kv => P (snd kv)) members -> P (VObject members).

Fixpoint value_nested_ind (v : value) : P v :=
  match v with
  | VUndefined => P_undefined
  | VNull => P_null
  | VBool b => P_bool b
  | VNumber n => P_number n
  | VString s => P_string s
  | VArray elems =>
      P_array
        ((fix all (l : list value) : Forall P l :=
            match l with
            | [] => Forall_nil P
            | x :: rest => Forall_cons x (value_nested_ind x) (all rest)
            end) elems)
  | VObject members =>
      P_object
        ((fix all (l : list (string * value)) : Forall (fun kv => P (snd kv)) l :=
            match l with
            | [] => Forall_nil _
            | kv :: rest =>
                Forall_cons (P := fun kv => P (snd kv)) kv
                            (value_nested_ind (snd kv)) (all rest)
            end) members)
  end.

End ValueInduction.

(** *** State and exceptions together: the body of a handler *)

Definition Eff (S A : Type) : Type := S -> completion A * S.

Definition ret {S A} (a : A) : Eff S A := fun s => (Normal a, s).

Definition ebind {S A B} (m : Eff S A) (k : A -> Eff S B) : Eff S B :=
  fun s =>
    match m s with
    | (Normal a, s') => k a s'
    | (Throw e, s') => (Throw e, s')
    end.

(** A pure expression evaluated inside a handler. *)
Definition lift {S A} (c : completion A) : Eff S A := fun s => (c, s).

(** A state setter: [setX(v)]. *)
Definition set {S} (f : S -> S) : Eff S unit := fun s => (Normal tt, f s).

(** [try { body } catch (e) { handler e }] *)
Definition try_catch {S A} (body : Eff S A) (handler : exn -> Eff S A) : Eff S A :=
  fun s =>
    match body s with
    | (Normal a, s') => (Normal a, s')
    | (Throw e, s') => handler e s'
    end.

(** [try { body } finally { fin }] *)
Definition try_finally {S A} (body : Eff S A) (fin : Eff S unit) : Eff S A :=
  fun s =>
    match body s with
    | (c, s') =>
        match fin s' with
        | (Normal _, s'') => (c, s'')
        | (Throw e, s'') => (Throw e, s'')
        end
    end.

Declare Scope eff_scope.
Delimit Scope eff_scope with eff.
Notation "x <~ m ;; k" := (ebind m (fun x => k))
  (at level 61, m at next level, right associativity) : eff_scope.
Notation "m ;;; k" := (ebind m (fun _ => k))
  (at level 61, right associativity) : eff_scope.

(** The list without its [i]-th element. *)
Definition remove_at {A} (i : nat) (l : list A) : list A :=
  firstn i l ++ skipn (S i) l.

End JS.

(** ** components/AIAgent.tsx *)

Module AIAgent.

Import JS.
Local Open Scope string_scope.
Local Open Scope js_scope.

(** [interface AgentResponse] as the record [normalized] is built: the
    analysis is text, the confidence a number, and the two lists are
    arrays of whatever values they were given. *)
Record AgentResponse : Type := {
  analysis : string;
  recommendations : list value;
  confidence : float;
  next_steps : list value
}.

Inductive Tab : Type := chat | suggestions_tab.

(** The five [useState] cells of the component.  [suggestions] holds the
    decoded body as it came, or [null]. *)
Record State : Type := {
  query : string;
  agentResponse : option AgentResponse;
  suggestions : value;
  loading : bool;
  activeTab : Tab
}.

Definition initial : State :=
  {| query := ""; agentResponse := None; suggestions := VNull;
     loading := false; activeTab := chat |}.

Definition setQuery (q : string) (s : State) : State :=
  {| query := q; agentResponse := agentResponse s; suggestions := suggestions s;
     loading := loading s; activeTab := activeTab s |}.
Definition setAgentResponse (r : option AgentResponse) (s : State) : State :=
  {| query := query s; agentResponse := r; suggestions := suggestions s;
     loading := loading s; activeTab := activeTab s |}.
Definition setSuggestions (v : value) (s : State) : State :=
  {| query := query s; agentResponse := agentResponse s; suggestions := v;
     loading := loading s; activeTab := activeTab s |}.
Definition setLoading (b : bool) (s : State) : State :=
  {| query := query s; agentResponse := agentResponse s; suggestions := suggestions s;
     loading := b; activeTab := activeTab s |}.
Definition setActiveTab (t : Tab) (s : State) : State :=
  {| query := query s; agentResponse := agentResponse s; suggestions := suggestions s;
     loading := loading s; activeTab := t |}.

(** [typeof c === 'number' ? c : 0] *)
Definition number_or_zero (c : value) : float :=
  match c with
  | VNumber n => n
  | _ => 0%float
  end.

Section Host.

Variable Number_toString : float -> string.

(** [Array.isArray(x) ? x : (x ? [String(x)] : [])], the expression of
    both [recommendations] and [next_steps]. *)
Definition array_or_wrap (x : value) : completion (list value) :=
  match x with
  | VArray elems => Normal elems
  | _ =>
      if to_boolean x then s <- to_string Number_toString x ;; Normal [VString s]
      else Normal []
  end.

(** The object literal [normalized] of [handleAgentQuery], its four
    member expressions evaluated in order on the decoded body [data]. *)
Definition normalize (data : value) : completion AgentResponse :=
  a <- get_prop data "analysis" ;;
  analysis_text <- to_string Number_toString (nullish_or a (VString "")) ;;
  r <- get_prop data "recommendations" ;;
  recs <- array_or_wrap r ;;
  c <- get_prop data "confidence" ;;
  n <- get_prop data "next_steps" ;;
  steps <- array_or_wrap n ;;
  Normal {| analysis := analysis_text;
            recommendations := recs;
            confidence := number_or_zero c;
            next_steps := steps |}.

Local Open Scope eff_scope.

(** [handleAgentQuery] after [await fetch(...)]: the rest of the [try],
    the [catch] that only logs, and the [finally]. *)
Definition handleAgentQuery_resume (fetched : settled Response) : Eff State unit :=
  try_finally
    (try_catch
       (response <~ lift (await fetched) ;;
        if ok response then
          data <~ lift (await (json response)) ;;
          normalized <~ lift (normalize data) ;;
          set (setAgentResponse (Some normalized))
        else ret tt)
       (fun _ => ret tt))
    (set (setLoading false)).

(** [loadSuggestions] after [await fetch(...)]. *)
Definition loadSuggestions_resume (fetched : settled Response) : Eff State unit :=
  try_finally
    (try_catch
       (response <~ lift (await fetched) ;;
        if ok response then
          data <~ lift (await (json response)) ;;
          set (setSuggestions data)
        else ret tt)
       (fun _ => ret tt))
    (set (setLoading false)).

End Host.

(** *** Vocabulary for the statements about [normalize] *)

Definition is_text (v : value) : bool :=
  match v with
  | VString _ => true
  | _ => false
  end.

(** A decoded body: [undefined] occurs nowhere in it. *)
Fixpoint decoded (v : value) : bool :=
  match v with
  | VUndefined => false
  | VArray elems => forallb decoded elems
  | VObject members => forallb (fun kv => decoded (snd kv)) members
  | _ => true
  end.

(** What [data.key] reads when [data] is neither [null] nor [undefined]. *)
Definition member (data : value) (key : string) : value :=
  match data with
  | VObject members =>
      match own_property key members with
      | Some w => w
      | None => VUndefined
      end
  | _ => VUndefined
  end.

(** The values on which [array_or_wrap] cannot throw: arrays, falsy
    values, and values that convert to text. *)
Definition wraps (x : value) : bool :=
  is_array x || negb (to_boolean x) || converts x.

(** The bodies on which no member expression of [normalized] throws. *)
Definition normalizable (data : value) : bool :=
  match data with
  | VUndefined | VNull => false
  | _ =>
      converts (nullish_or (member data "analysis") (VString ""))
      && wraps (member data "recommendations")
      && wraps (member data "next_steps")
  end.

(** An engine for the closed examples.  None of them converts a number to
    text, so its answer is never consulted; the theorems hold for every
    engine. *)
Definition example_engine (n : float) : string := "0".

(** Which handler a request in flight belongs to. *)
Inductive Handler : Type := AgentQuery | Suggestions.

(** The mounted component: its [productId] prop, its state, every call
    of [fetch] so far in order, and the handlers suspended at their
    [await fetch], oldest first. *)
Record World : Type := {
  productId : string;
  state : State;
  calls : list Request;
  in_flight : list (Handler * Request)
}.

Definition mount (p : string) : World :=
  {| productId := p; state := initial; calls := []; in_flight := [] |}.

Definition analyze_request (q p : string) : Request :=
  POST "http://localhost:8000/agent/analyze"
       (VObject [("query", VString q); ("product_id", VString p)]).

Definition suggestions_request (p : string) : Request :=
  GET ("http://localhost:8000/agent/suggestions/" ++ p).

(** [handleAgentQuery] up to its [await]: return on a blank query,
    otherwise [setLoading(true)] and the call of [fetch]. *)
Definition handleAgentQuery (w : World) : World :=
  if String.eqb (trim (query (state w))) "" then w
  else
    let r := analyze_request (trim (query (state w))) (productId w) in
    {| productId := productId w;
       state := setLoading true (state w);
       calls := calls w ++ [r];
       in_flight := in_flight w ++ [(AgentQuery, r)] |}.

(** [loadSuggestions] up to its [await]. *)
Definition loadSuggestions (w : World) : World :=
  let r := suggestions_request (productId w) in
  {| productId := productId w;
     state := setLoading true (state w);
     calls := calls w ++ [r];
     in_flight := in_flight w ++ [(Suggestions, r)] |}.

Definition with_state (w : World) (s : State) : World :=
  {| productId := productId w; state := s; calls := calls w;
     in_flight := in_flight w |}.

(** [disabled={loading || !query.trim()}] of the send button. *)
Definition send_disabled (s : State) : bool :=
  loading s || String.eqb (trim (query s)) "".

(** What can happen to the mounted component. *)
Inductive Event : Type :=
| TypeQuery (q : string)      (* onChange of the input *)
| PressEnter                  (* onKeyPress of the input, key Enter *)
| ClickSend                   (* onClick of the send button *)
| ClickChat                   (* onClick of the Chat Analysis tab *)
| ClickSuggestions            (* onClick of the Smart Suggestions tab *)
| Settle (i : nat) (fetched : settled Response)
                              (* the fetch of the i-th suspended handler settles *)
| ChangeProduct (p : string). (* the parent renders another productId *)

Section Run.

Variable Number_toString : float -> string.

(** One event.  The input and the send button are rendered on the chat
    tab only; a disabled button fires no [onClick]; the component has no
    [key], so another [productId] leaves its state as it is. *)
Definition step (w : World) (e : Event) : World :=
  match e with
  | TypeQuery q =>
      match activeTab (state w) with
      | chat => with_state w (setQuery q (state w))
      | suggestions_tab => w
      end
  | PressEnter =>
      match activeTab (state w) with
      | chat => handleAgentQuery w
      | suggestions_tab => w
      end
  | ClickSend =>
      match activeTab (state w) with
      | chat => if send_disabled (state w) then w else handleAgentQuery w
      | suggestions_tab => w
      end
  | ClickChat => with_state w (setActiveTab chat (state w))
  | ClickSuggestions =>
      let w' := with_state w (setActiveTab suggestions_tab (state w)) in
      if to_boolean (suggestions (state w)) then w' else loadSuggestions w'
  | Settle i fetched =>
      match nth_error (in_flight w) i with
      | None => w
      | Some (h, _) =>
          let resume :=
            match h with
            | AgentQuery => handleAgentQuery_resume Number_toString fetched
            | Suggestions => loadSuggestions_resume fetched
            end in
          {| productId := productId w;
             state := snd (resume (state w));
             calls := calls w;
             in_flight := remove_at i (in_flight w) |}
      end
  | ChangeProduct p =>
      {| productId := p; state := state w; calls := calls w;
         in_flight := in_flight w |}
  end.

Definition run (w : World) (events : list Event) : World :=
  fold_left step events w.

End Run.

(** *** Vocabulary for the statements about the session *)

Definition is_tab_click (e : Event) : bool :=
  match e with
  | ClickChat | ClickSuggestions => true
  | _ => false
  end.

Definition is_settle (e : Event) : bool :=
  match e with
  | Settle _ _ => true
  | _ => false
  end.

(** An answer of the suggestions endpoint, for the closed examples. *)
Definition suggestions_answer : settled Response :=
  json_response
    ("{" ++ dq ++ "suggestions" ++ dq ++ ":[]," ++ dq ++ "priority" ++ dq ++ ":"
         ++ dq ++ "high" ++ dq ++ "}")
    (VObject [("suggestions", VArray []); ("priority", VString "high")]).

(** The user types a question and presses Enter: one request is
    suspended and the component is loading. *)
Definition asked : World :=
  run example_engine (mount "nike_air_max_270")
              [TypeQuery "Should I increase the price?"; PressEnter].

(** The suggestions tab was opened and the answer has arrived. *)
Definition suggested : World :=
  run example_engine (mount "nike_air_max_270")
              [ClickSuggestions; Settle 0 suggestions_answer].

End AIAgent.

(** ** app/page.tsx *)

Module Home.

Import JS.
Local Open Scope string_scope.
Local Open Scope js_scope.
Local Open Scope eff_scope.

(** [interface Product] of the types file. *)
Record Product : Type := {
  product_id : string;
  name : string;
  category : string;
  price : float;
  brand : string;
  description : string
}.

(** A product as the object the state holds. *)
Definition product_value (p : Product) : value :=
  VObject [("product_id", VString (product_id p));
           ("name", VString (name p));
           ("category", VString (category p));
           ("price", VNumber (price p));
           ("brand", VString (brand p));
           ("description", VString (description p))].

(** The seven [useState] cells.  What a response decoded to is stored as
    it came. *)
Record State : Type := {
  searchResults : value;
  selectedProduct : option Product;
  salesData : value;
  forecast : value;
  segments : value;
  insights : value;
  loading : bool
}.

Definition initial : State :=
  {| searchResults := VArray []; selectedProduct := None; salesData := VNull;
     forecast := VNull; segments := VArray []; insights := VString "";
     loading := false |}.

Definition setSearchResults (v : value) (s : State) : State :=
  {| searchResults := v; selectedProduct := selectedProduct s;
     salesData := salesData s; forecast := forecast s; segments := segments s;
     insights := insights s; loading := loading s |}.
Definition setSelectedProduct (p : option Product) (s : State) : State :=
  {| searchResults := searchResults s; selectedProduct := p;
     salesData := salesData s; forecast := forecast s; segments := segments s;
     insights := insights s; loading := loading s |}.
Definition setSalesData (v : value) (s : State) : State :=
  {| searchResults := searchResults s; selectedProduct := selectedProduct s;
     salesData := v; forecast := forecast s; segments := segments s;
     insights := insights s; loading := loading s |}.
Definition setForecast (v : value) (s : State) : State :=
  {| searchResults := searchResults s; selectedProduct := selectedProduct s;
     salesData := salesData s; forecast := v; segments := segments s;
     insights := insights s; loading := loading s |}.
Definition setSegments (v : value) (s : State) : State :=
  {| searchResults := searchResults s; selectedProduct := selectedProduct s;
     salesData := salesData s; forecast := forecast s; segments := v;
     insights := insights s; loading := loading s |}.
Definition setInsights (v : value) (s : State) : State :=
  {| searchResults := searchResults s; selectedProduct := selectedProduct s;
     salesData := salesData s; forecast := forecast s; segments := segments s;
     insights := v; loading := loading s |}.
Definition setLoading (b : bool) (s : State) : State :=
  {| searchResults := searchResults s; selectedProduct := selectedProduct s;
     salesData := salesData s; forecast := forecast s; segments := segments s;
     insights := insights s; loading := b |}.

(** [mockResults] of the [catch] of [handleSearch]. *)
Definition mockResults : list Product :=
  [ {| product_id := "nike_air_max_270";
       name := "Nike Air Max 270";
       category := "Running Shoes";
       price := 150;
       brand := "Nike";
       description := "Comfortable running shoes with Air Max technology" |};
    {| product_id := "adidas_ultraboost_22";
       name := "Adidas Ultraboost 22";
       category := "Running Shoes";
       price := 180;
       brand := "Adidas";
       description := "High-performance running shoes with Boost technology" |} ].

(** [handleSearch] after [await fetch(...)]. *)
Definition handleSearch_resume (fetched : settled Response) : Eff State unit :=
  try_finally
    (try_catch
       (response <~ lift (await fetched) ;;
        if negb (ok response) then
          errorText <~ lift (await (text response)) ;;
          lift (Throw (SearchFailed (status response) errorText))
        else
          results <~ lift (await (json response)) ;;
          set (setSearchResults results))
       (fun _ => set (setSearchResults (VArray (map product_value mockResults)))))
    (set (setLoading false)).

(** [await Promise.all([a, b, c, d])]: the four values, or a rejection.
    Which reason wins when several reject depends on timing; the handler
    only logs it. *)
Definition all4 {A} (a b c d : settled A) : completion (A * A * A * A) :=
  x <- await a ;; y <- await b ;; z <- await c ;; t <- await d ;;
  Normal (x, y, z, t).

(** How the four fetches of one selection settle. *)
Record Fetched : Type := {
  sales_fetch : settled Response;
  forecast_fetch : settled Response;
  segments_fetch : settled Response;
  insights_fetch : settled Response
}.

(** [handleProductSelect] after its first [await]: the second
    [Promise.all] over the bodies, the four setters, the [catch] that only
    logs, and the [finally]. *)
Definition handleProductSelect_resume (f : Fetched) : Eff State unit :=
  try_finally
    (try_catch
       (responses <~ lift (all4 (sales_fetch f) (forecast_fetch f)
                                (segments_fetch f) (insights_fetch f)) ;;
        let '(salesResponse, forecastResponse, segmentsResponse, insightsResponse) :=
          responses in
        decoded <~ lift (all4 (json salesResponse) (json forecastResponse)
                              (json segmentsResponse) (json insightsResponse)) ;;
        let '(salesData', forecastData, segmentsData, insightsData) := decoded in
        set (setSalesData salesData') ;;;
        set (setForecast forecastData) ;;;
        segs <~ lift (get_prop segmentsData "segments") ;;
        set (setSegments segs) ;;;
        ins <~ lift (get_prop insightsData "insights") ;;
        set (setInsights ins))
       (fun _ => ret tt))
    (set (setLoading false)).

(** The page: its state, every call of [fetch] so far in order, and the
    suspended runs of the two handlers, oldest first. *)
Record World : Type := {
  view : State;
  calls : list Request;
  searches : list string;
  selections : list Product
}.

Definition start : World :=
  {| view := initial; calls := []; searches := []; selections := [] |}.

Definition search_request (q : string) : Request :=
  POST "http://localhost:8000/search" (VObject [("query", VString q)]).

Definition product_requests (p : Product) : list Request :=
  [ GET ("http://localhost:8000/products/" ++ product_id p ++ "/sales");
    GET ("http://localhost:8000/products/" ++ product_id p ++ "/forecast");
    GET ("http://localhost:8000/products/" ++ product_id p ++ "/segments");
    GET ("http://localhost:8000/products/" ++ product_id p ++ "/insights") ].

(** [handleSearch] up to its [await]. *)
Definition handleSearch (q : string) (w : World) : World :=
  {| view := setLoading true (view w);
     calls := calls w ++ [search_request q];
     searches := searches w ++ [q];
     selections := selections w |}.

(** [handleProductSelect] up to its first [await]. *)
Definition handleProductSelect (p : Product) (w : World) : World :=
  {| view := setLoading true (setSelectedProduct (Some p) (view w));
     calls := calls w ++ product_requests p;
     searches := searches w;
     selections := selections w ++ [p] |}.

Inductive Event : Type :=
| Submit (q : string)          (* the search form is submitted with this text *)
| SearchSettles (i : nat) (fetched : settled Response)
| Select (p : Product)         (* onClick of the card of p *)
| SelectionSettles (i : nat) (f : Fetched).

(** One event.  While [loading] the search input and its button are
    disabled, and [SearchBar] passes on only a query that is not blank,
    trimmed.  A product card is never disabled. *)
Definition step (w : World) (e : Event) : World :=
  match e with
  | Submit q =>
      if loading (view w) || String.eqb (trim q) "" then w
      else handleSearch (trim q) w
  | SearchSettles i fetched =>
      match nth_error (searches w) i with
      | None => w
      | Some _ =>
          {| view := snd (handleSearch_resume fetched (view w));
             calls := calls w;
             searches := remove_at i (searches w);
             selections := selections w |}
      end
  | Select p => handleProductSelect p w
  | SelectionSettles i f =>
      match nth_error (selections w) i with
      | None => w
      | Some _ =>
          {| view := snd (handleProductSelect_resume f (view w));
             calls := calls w;
             searches := searches w;
             selections := remove_at i (selections w) |}
      end
  end.

Definition run (w : World) (events : list Event) : World :=
  fold_left step events w.

(** *** Vocabulary for the statements about the page *)


(** What [await response.json()] gives for a fetch, a rejected fetch
    included. *)
Definition decoded_body (fetched : settled Response) : settled value :=
  match fetched with
  | Fulfilled r => json r
  | Rejected e => Rejected e
  end.

Definition is_rejected {A} (p : settled A) : bool :=
  match p with
  | Rejected _ => true
  | Fulfilled _ => false
  end.

(** One of the four fetches rejects, or one of the four bodies does not
    decode. *)
Definition some_rejected (f : Fetched) : bool :=
  is_rejected (decoded_body (sales_fetch f))
  || is_rejected (decoded_body (forecast_fetch f))
  || is_rejected (decoded_body (segments_fetch f))
  || is_rejected (decoded_body (insights_fetch f)).

(** The four fetches fulfil, the four bodies decode, and the members
    [segments] and [insights] can be read: these are the four values the
    setters are given. *)
Definition delivers (f : Fetched) (sales forecast' segs ins : value) : Prop :=
  exists segmentsData insightsData,
    decoded_body (sales_fetch f) = Fulfilled sales
    /\ decoded_body (forecast_fetch f) = Fulfilled forecast'
    /\ decoded_body (segments_fetch f) = Fulfilled segmentsData
    /\ decoded_body (insights_fetch f) = Fulfilled insightsData
    /\ get_prop segmentsData "segments" = Normal segs
    /\ get_prop insightsData "insights" = Normal ins.

(** The four analytics fields of the view. *)
Definition analytics (s : State) : value * value * value * value :=
  (salesData s, forecast s, segments s, insights s).

(** *** Responses for the closed examples *)

(** The object [{key: "s"}] with its text. *)
Definition text_member_response (key s : string) : settled Response :=
  json_response ("{" ++ dq ++ key ++ dq ++ ":" ++ dq ++ s ++ dq ++ "}")
                (VObject [(key, VString s)]).

(** Four answers of the backend for the product [id], each naming it. *)
Definition answers_for (id : string) : Fetched :=
  {| sales_fetch := text_member_response "product_id" id;
     forecast_fetch := text_member_response "trend" id;
     segments_fetch := text_member_response "segments" id;
     insights_fetch := text_member_response "insights" id |}.

(** The same, but the forecast fetch fails on the network. *)
Definition answers_without_forecast (id : string) : Fetched :=
  {| sales_fetch := text_member_response "product_id" id;
     forecast_fetch := Rejected NetworkError;
     segments_fetch := text_member_response "segments" id;
     insights_fetch := text_member_response "insights" id |}.

(** A 500 response with a plain-text body. *)
Definition internal_server_error : settled Response :=
  Fulfilled {| status := 500;
               text := Fulfilled "Internal Server Error";
               json := Rejected SyntaxError |}.

Definition nike : Product := nth 0 mockResults
  {| product_id := ""; name := ""; category := ""; price := 0;
     brand := ""; description := "" |}.
Definition adidas : Product := nth 1 mockResults
  {| product_id := ""; name := ""; category := ""; price := 0;
     brand := ""; description := "" |}.

(** A session: a search that fails with a 500, so that the two mock
    products are shown. *)
Definition failed_search : list Event :=
  [Submit "running shoes"; SearchSettles 0 internal_server_error].

End Home.

(** ** components/InsightsPanel.tsx *)

Module InsightsPanel.

Import JS.
Local Open Scope string_scope.
Local Open Scope list_scope.

(** Texts are held as their UTF-8 bytes, with the white space of [trim]
    above.  The patterns searched for are ASCII except the bullet, whose
    encoding is three bytes. *)

(** [s.includes(needle)] *)
Fixpoint includes (s needle : string) : bool :=
  prefix needle s
  || match s with
     | EmptyString => false
     | String _ rest => includes rest needle
     end.

(** [text.split('\n')]: the pieces between line feeds, the empty ones
    included; the empty text gives one empty piece. *)
Fixpoint split_lines (text : string) : list string :=
  match text with
  | EmptyString => [EmptyString]
  | String c rest =>
      if Ascii.eqb c (ascii_of_nat 10) then EmptyString :: split_lines rest
      else
        match split_lines rest with
        | line :: lines => String c line :: lines
        | [] => [String c EmptyString]
        end
  end.

(** The bullet U+2022 is E2 80 A2. *)
Definition is_bullet (c1 c2 c3 : ascii) : bool :=
  Ascii.eqb c1 (ascii_of_nat 226) && Ascii.eqb c2 (ascii_of_nat 128)
  && Ascii.eqb c3 (ascii_of_nat 162).

(** [replace(/^[•\*\-\s]+/, '')]: the leading bullets, asterisks, dashes
    and white space characters are dropped. *)
Fixpoint strip_bullets (line : string) : string :=
  match line with
  | EmptyString => EmptyString
  | String c rest =>
      if Ascii.eqb c "*" || Ascii.eqb c "-" || white_space_byte c
      then strip_bullets rest
      else
        match rest with
        | String c2 rest2 =>
            if white_space_pair c c2 then strip_bullets rest2
            else
              match rest2 with
              | String c3 rest3 =>
                  if is_bullet c c2 c3 || white_space_triple c c2 c3
                  then strip_bullets rest3
                  else line
              | EmptyString => line
              end
        | EmptyString => line
        end
  end.

(** [replace(/\*\*/g, '')]: every pair of asterisks met from the left is
    dropped. *)
Fixpoint remove_bold (line : string) : string :=
  match line with
  | EmptyString => EmptyString
  | String c rest =>
      match rest with
      | String c2 rest' =>
          if Ascii.eqb c "*" && Ascii.eqb c2 "*" then remove_bold rest'
          else String c (remove_bold rest)
      | EmptyString => line
      end
  end.

(** [replace(/:\s*/, ': ')]: the first colon and the white space after
    it become a colon and one space. *)
Fixpoint clean_colon (line : string) : string :=
  match line with
  | EmptyString => EmptyString
  | String c rest =>
      if Ascii.eqb c ":" then ": " ++ trim_start rest
      else String c (clean_colon rest)
  end.

(** [cleanLine] of the loop body. *)
Definition cleanLine (line : string) : string :=
  trim (clean_colon (remove_bold (strip_bullets line))).

Definition is_metric (clean : string) : bool :=
  includes clean "Revenue Growth" || includes clean "Unit Sales"
  || includes clean "Price Point".

Definition is_recommendation (clean : string) : bool :=
  includes clean "Recommendation".

(** What [parseInsights] returns. *)
Record Parsed : Type := {
  metrics : list string;
  recommendations : list string
}.

(** The body of the [forEach]: [push] appends at the end. *)
Definition classify (acc : Parsed) (line : string) : Parsed :=
  let clean := cleanLine line in
  if is_metric clean then
    {| metrics := metrics acc ++ [clean]; recommendations := recommendations acc |}
  else if is_recommendation clean then
    {| metrics := metrics acc; recommendations := recommendations acc ++ [clean] |}
  else acc.

(** The lines kept by [filter(line => line.trim())]. *)
Definition kept_lines (text : string) : list string :=
  filter (fun line => negb (String.eqb (trim line) "")) (split_lines text).

Definition parseInsights (text : string) : Parsed :=
  fold_left classify (kept_lines text) {| metrics := []; recommendations := [] |}.

(** The third block of the panel, the raw text, is rendered when both
    lists are empty. *)
Definition shows_raw_text (text : string) : bool :=
  match metrics (parseInsights text), recommendations (parseInsights text) with
  | [], [] => true
  | _, _ => false
  end.

(** *** Vocabulary for the statements about the panel *)

(** The first character, when there is one, satisfies [p]. *)
Definition head_is (p : ascii -> bool) (s : string) : bool :=
  match s with
  | EmptyString => false
  | String c _ => p c
  end.

Definition is_star (c : ascii) : bool := Ascii.eqb c "*".

(** A cleaned line that goes to the second list. *)
Definition only_recommendation (clean : string) : bool :=
  negb (is_metric clean) && is_recommendation clean.

(** A word that the colon rule cannot assemble: it holds no colon and
    does not start with a space. *)
Definition plain_word (w : string) : bool :=
  negb (includes w ":") && negb (head_is (fun c => Ascii.eqb c " ") w)
  && negb (String.eqb w "").

(** A one-byte marker that [strip_bullets] drops: asterisk, dash, white
    space. *)
Definition is_marker (c : ascii) : bool :=
  Ascii.eqb c "*" || Ascii.eqb c "-" || white_space_byte c.

(** The last character, when there is one, satisfies [p]. *)
Fixpoint last_is (p : ascii -> bool) (s : string) : bool :=
  match s with
  | EmptyString => false
  | String c EmptyString => p c
  | String _ rest => last_is p rest
  end.

(** Every byte satisfies [p]. *)
Fixpoint all_bytes (p : ascii -> bool) (s : string) : bool :=
  match s with
  | EmptyString => true
  | String c rest => p c && all_bytes p rest
  end.

(** A byte that a white space character can hold: a one-byte white space
    or a byte of a character outside ASCII. *)
Definition blank_byte (c : ascii) : bool := white_space_byte c || is_high c.

(** A word that the cleaning cannot break: it is not empty, holds no
    asterisk, colon or line feed, starts with an ASCII character that is
    not a marker, and ends with an ASCII character that is not white
    space. *)
Definition sturdy_word (w : string) : bool :=
  negb (String.eqb w "")
  && negb (includes w "*") && negb (includes w ":")
  && negb (includes w (String (ascii_of_nat 10) EmptyString))
  && negb (head_is (fun c => is_marker c || is_high c) w)
  && negb (last_is blank_byte w).

(** *** A text for the closed examples *)

Definition line_feed : string := String (ascii_of_nat 10) EmptyString.
Definition bullet : string :=
  String (ascii_of_nat 226) (String (ascii_of_nat 128) (String (ascii_of_nat 162) EmptyString)).

(** An answer of the insights endpoint in the style of the backend. *)
Definition sample_insights : string :=
  ("Performance summary" ++ line_feed
   ++ bullet ++ " **Revenue Growth**:   12% over the period" ++ line_feed
   ++ "   " ++ line_feed
   ++ "- **Recommendation**: watch the Price Point" ++ line_feed
   ++ "* Recommendation:bundle with socks")%string.

End InsightsPanel.

(** ** SalesChart, ProductCard and the other small pieces *)

Module Widgets.

Import JS.
Local Open Scope string_scope.
Local Open Scope list_scope.

(** [interface SalesData] of the types file. *)
Record SalesData : Type := {
  sales_product_id : string;
  dates : list string;
  sales : list float;
  units_sold : list float
}.

(** A point of the chart. *)
Record ChartPoint : Type := {
  date : string;
  point_sales : value;
  point_units : value
}.

(** [arr[index]] on an array of numbers: [undefined] past its end. *)
Definition at_index (arr : list float) (index : nat) : value :=
  match nth_error arr index with
  | Some n => VNumber n
  | None => VUndefined
  end.

Section Chart.

(** [new Date(date).toLocaleDateString('en-US', ...)] of the engine. *)
Variable toLocaleDateString : string -> string.

(** [data.dates.map((date, index) => ...)], from the index [index] on. *)
Fixpoint chart_from (index : nat) (ds : list string) (data : SalesData)
  : list ChartPoint :=
  match ds with
  | [] => []
  | d :: rest =>
      {| date := toLocaleDateString d;
         point_sales := at_index (sales data) index;
         point_units := at_index (units_sold data) index |}
      :: chart_from (S index) rest data
  end.

(** [chartData] of [SalesChart]. *)
Definition chartData (data : SalesData) : list ChartPoint :=
  chart_from 0 (dates data) data.

End Chart.

(** [getPriorityColor] of [AIAgent]: the [switch] compares with [===]. *)
Definition getPriorityColor (priority : string) : string :=
  if String.eqb priority "high" then "text-red-600 bg-red-50 border-red-200"
  else if String.eqb priority "medium" then "text-yellow-600 bg-yellow-50 border-yellow-200"
  else if String.eqb priority "low" then "text-green-600 bg-green-50 border-green-200"
  else "text-gray-600 bg-gray-50 border-gray-200".

(** [isSelected] as [Home] passes it to the card of [product]:
    [selectedProduct?.product_id === product.product_id]. *)
Definition isSelected (s : Home.State) (product : Home.Product) : bool :=
  match Home.selectedProduct s with
  | Some selected => String.eqb (Home.product_id selected) (Home.product_id product)
  | None => false
  end.

(** *** Vocabulary for the statements about these pieces *)

Definition is_number (v : value) : bool :=
  match v with
  | VNumber _ => true
  | _ => false
  end.

(** A point both of whose values are numbers. *)
Definition point_defined (p : ChartPoint) : bool :=
  is_number (point_sales p) && is_number (point_units p).

(** One of the three priorities that [getPriorityColor] names. *)
Definition known_priority (priority : string) : bool :=
  String.eqb priority "high" || String.eqb priority "medium"
  || String.eqb priority "low".

End Widgets.

(** ** Vocabulary for the statements about runs *)

Module Runs.

Import JS.
Local Open Scope string_scope.
Local Open Scope list_scope.

(** *** The page *)

Definition is_select (e : Home.Event) : bool :=
  match e with
  | Home.Select _ => true
  | _ => false
  end.


(** What a settled search leaves in [searchResults]: the decoded body of
    a 2xx response, else the mock products. *)
Definition search_result (fetched : settled Response) : value :=
  match fetched with
  | Fulfilled r =>
      if ok r then
        match json r with
        | Fulfilled results => results
        | Rejected _ => VArray (map Home.product_value Home.mockResults)
        end
      else VArray (map Home.product_value Home.mockResults)
  | Rejected _ => VArray (map Home.product_value Home.mockResults)
  end.

(** A call the page can make: a search with a trimmed query that is not
    blank, or one of the four calls for a product. *)
Definition page_call (r : Request) : Prop :=
  (exists q, r = Home.search_request q /\ q <> "" /\ trim q = q)
  \/ (exists p, In r (Home.product_requests p)).

(** The spinner invariant: with nothing suspended, [loading] is off. *)
Definition settled_means_idle (w : Home.World) : Prop :=
  Home.searches w = [] -> Home.selections w = [] -> Home.loading (Home.view w) = false.

(** *** The agent session *)

(** A call the session can make: a query that is not blank, trimmed, or
    a request for suggestions. *)
Definition session_call (r : Request) : Prop :=
  (exists q p, r = AIAgent.analyze_request q p /\ q <> "" /\ trim q = q)
  \/ (exists p, r = AIAgent.suggestions_request p).

(** With nothing suspended, [loading] is off. *)
Definition session_idle (w : AIAgent.World) : Prop :=
  AIAgent.in_flight w = [] -> AIAgent.loading (AIAgent.state w) = false.

(** What a settled suggestions request has to store, if anything: the
    decoded body of a 2xx response. *)
Definition suggestions_body (fetched : settled Response) : option value :=
  match fetched with
  | Fulfilled r =>
      if ok r then
        match json r with
        | Fulfilled data => Some data
        | Rejected _ => None
        end
      else None
  | Rejected _ => None
  end.

(** An event that reaches neither handler: a click on a tab, or another
    product. *)
Definition is_tab_or_product (e : AIAgent.Event) : bool :=
  match e with
  | AIAgent.ClickChat | AIAgent.ClickSuggestions | AIAgent.ChangeProduct _ => true
  | _ => false
  end.

(** The object [normalized] as a value. *)
Definition response_value (r : AIAgent.AgentResponse) : value :=
  VObject [("analysis", VString (AIAgent.analysis r));
           ("recommendations", VArray (AIAgent.recommendations r));
           ("confidence", VNumber (AIAgent.confidence r));
           ("next_steps", VArray (AIAgent.next_steps r))].

(** *** Responses for the closed examples *)

(** An answer of the analyze endpoint whose recommendations are one
    text. *)
Definition analysis_answer : settled Response :=
  json_response
    ("{" ++ dq ++ "analysis" ++ dq ++ ":" ++ dq ++ "Hold the price" ++ dq ++ ","
         ++ dq ++ "recommendations" ++ dq ++ ":" ++ dq ++ "Wait" ++ dq ++ ","
         ++ dq ++ "confidence" ++ dq ++ ":0.5}")%string
    (VObject [("analysis", VString "Hold the price");
              ("recommendations", VString "Wait");
              ("confidence", VNumber 0.5)]).

(** A 503 answer with a plain-text body. *)
Definition service_unavailable : settled Response :=
  Fulfilled {| status := 503; text := Fulfilled "Service Unavailable";
               json := Rejected SyntaxError |}.

Section Host.

Variable Number_toString : float -> string.

(** What a settled query has to store, if anything: the normalised body
    of a 2xx response. *)
Definition query_answer (fetched : settled Response) : option AIAgent.AgentResponse :=
  match suggestions_body fetched with
  | Some data =>
      match AIAgent.normalize Number_toString data with
      | Normal res => Some res
      | Throw _ => None
      end
  | None => None
  end.

End Host.

End Runs.

(** * Properties *)

(** ** Text conversion *)

Module JSFacts.

Import JS.
Local Open Scope string_scope.
Local Open Scope js_scope.

Section HostFacts.

Variable Number_toString : float -> string.

Lemma join_outcome (l : list value) :
  Forall (to_string_outcome Number_toString) l ->
  match join (to_string Number_toString) l with
  | Normal _ => forallb converts l = true
  | Throw e => e = TypeError /\ forallb converts l = false
  end.
Proof.
  induction 1 as [|x rest Hx _ IH]; [reflexivity|].
  cbn [join forallb].
  assert (Helem :
    match (match x with
           | VUndefined | VNull => Normal ""
           | _ => to_string Number_toString x
           end) with
    | Normal _ => converts x = true
    | Throw e => e = TypeError /\ converts x = false
    end).
  { unfold to_string_outcome in Hx. destruct x; auto. }
  destruct (match x with
            | VUndefined | VNull => Normal ""
            | _ => to_string Number_toString x
            end) as [s|e]; cbn [bind].
  - rewrite Helem. cbn [andb].
    destruct rest as [|y rest']; [reflexivity|].
    destruct (join (to_string Number_toString) (y :: rest')); cbn [bind]; exact IH.
  - destruct Helem as [-> ->]. split; reflexivity.
Qed.

Lemma to_string_outcome_all (v : value) : to_string_outcome Number_toString v.
Proof.
  induction v using value_nested_ind; unfold to_string_outcome; cbn [to_string converts];
    try reflexivity.
  - destruct b; reflexivity.
  - apply join_outcome. assumption.
  - destruct (has_own "toString" members); cbn; auto.
Qed.

Lemma to_string_converts (v : value) :
  converts v = true -> exists s, to_string Number_toString v = Normal s.
Proof.
  intro Hc. pose proof (to_string_outcome_all v) as H. unfold to_string_outcome in H.
  destruct (to_string Number_toString v) as [s|e]; [eauto|].
  destruct H as [_ H]. congruence.
Qed.

Lemma to_string_throws (v : value) :
  converts v = false -> to_string Number_toString v = Throw TypeError.
Proof.
  intro Hc. pose proof (to_string_outcome_all v) as H. unfold to_string_outcome in H.
  destruct (to_string Number_toString v) as [s|e]; [congruence|].
  destruct H as [-> _]. reflexivity.
Qed.

End HostFacts.

Lemma value_is_nullish (v : value) :
  (v = VNull \/ v = VUndefined) \/ (v <> VNull /\ v <> VUndefined).
Proof. destruct v; auto; right; split; discriminate. Qed.

End JSFacts.

(** ** The normaliser of [handleAgentQuery] *)

Module NormalizeSpec.

Import JS AIAgent JSFacts.
Local Open Scope string_scope.
Local Open Scope js_scope.

Section Host.

Variable Number_toString : float -> string.

Lemma get_prop_member (data : value) (key : string) (v : value) :
  get_prop data key = Normal v -> member data key = v.
Proof.
  destruct data; cbn; try congruence.
  destruct (own_property key members); congruence.
Qed.

Lemma get_prop_defined (data : value) (key : string) :
  data <> VNull -> data <> VUndefined ->
  get_prop data key = Normal (member data key).
Proof.
  destruct data; cbn; try congruence; try reflexivity.
  destruct (own_property key members); reflexivity.
Qed.

Lemma get_prop_throws (data : value) (key : string) (e : exn) :
  get_prop data key = Throw e -> data = VNull \/ data = VUndefined.
Proof.
  destruct data; cbn; auto; try discriminate.
  destruct (own_property key members); discriminate.
Qed.

Lemma array_or_wrap_wraps (x : value) :
  wraps x = true -> exists l, array_or_wrap Number_toString x = Normal l.
Proof.
  unfold wraps, array_or_wrap. intro H.
  destruct (is_array x) eqn:Harr.
  - destruct x; try discriminate. eauto.
  - destruct (to_boolean x) eqn:Hb; cbn in H.
    + destruct (to_string_converts Number_toString x H) as [s Hs].
      rewrite Hs. destruct x; try discriminate; cbn; eauto.
    + destruct x; try discriminate; eauto.
Qed.

Lemma array_or_wrap_throws (x : value) :
  wraps x = false -> array_or_wrap Number_toString x = Throw TypeError.
Proof.
  unfold wraps, array_or_wrap. intro H.
  destruct (is_array x) eqn:Harr; [discriminate|].
  destruct (to_boolean x) eqn:Hb; [|discriminate]. cbn in H.
  rewrite (to_string_throws Number_toString x H).
  destruct x; try discriminate; reflexivity.
Qed.

(** [normalize] on a body that is neither [null] nor [undefined], member
    by member. *)
Lemma normalize_members (data : value) :
  data <> VNull -> data <> VUndefined ->
  normalize Number_toString data =
    (analysis_text <-
       to_string Number_toString (nullish_or (member data "analysis") (VString "")) ;;
     recs <- array_or_wrap Number_toString (member data "recommendations") ;;
     steps <- array_or_wrap Number_toString (member data "next_steps") ;;
     Normal {| analysis := analysis_text;
               recommendations := recs;
               confidence := number_or_zero (member data "confidence");
               next_steps := steps |}).
Proof.
  intros Hn Hu. unfold normalize.
  rewrite !get_prop_defined by assumption. cbn [bind].
  destruct (to_string Number_toString _); cbn [bind]; [|reflexivity].
  destruct (array_or_wrap Number_toString (member data "recommendations"));
    reflexivity.
Qed.

(** [normalizable] is exactly the domain on which [normalize] gives a
    record; off it, a TypeError is thrown. *)
Lemma normalize_normalizable (data : value) :
  normalizable data = true ->
  exists a recs steps,
    normalize Number_toString data =
      Normal {| analysis := a; recommendations := recs;
                confidence := number_or_zero (member data "confidence");
                next_steps := steps |}.
Proof.
  intro H.
  assert (Hn : data <> VNull) by (intros ->; discriminate).
  assert (Hu : data <> VUndefined) by (intros ->; discriminate).
  rewrite (normalize_members Hn Hu).
  assert (H' : converts (nullish_or (member data "analysis") (VString "")) = true
               /\ wraps (member data "recommendations") = true
               /\ wraps (member data "next_steps") = true).
  { assert (Hd : normalizable data
                  = converts (nullish_or (member data "analysis") (VString ""))
                    && wraps (member data "recommendations")
                    && wraps (member data "next_steps"))
      by (destruct data; try congruence; reflexivity).
    rewrite Hd in H.
    apply andb_prop in H; destruct H as [H H3].
    apply andb_prop in H; destruct H as [H1 H2]. auto. }
  destruct H' as (H1 & H2 & H3).
  destruct (to_string_converts Number_toString _ H1) as [a ->].
  destruct (array_or_wrap_wraps _ H2) as [recs ->].
  destruct (array_or_wrap_wraps _ H3) as [steps ->].
  cbn [bind]. eauto.
Qed.

Lemma normalize_not_normalizable (data : value) :
  normalizable data = false ->
  normalize Number_toString data = Throw TypeError.
Proof.
  intro H.
  destruct (value_is_nullish data) as [Hnull|[Hn Hu]].
  - destruct Hnull; subst; reflexivity.
  - rewrite (normalize_members Hn Hu).
    assert (H' : converts (nullish_or (member data "analysis") (VString ""))
                 && wraps (member data "recommendations")
                 && wraps (member data "next_steps") = false)
      by (destruct data; try congruence; exact H).
    destruct (converts (nullish_or (member data "analysis") (VString ""))) eqn:H1.
    + destruct (to_string_converts Number_toString _ H1) as [a ->]. cbn [bind].
      destruct (wraps (member data "recommendations")) eqn:H2.
      * destruct (array_or_wrap_wraps _ H2) as [recs ->]. cbn [bind].
        cbn in H'. rewrite (array_or_wrap_throws _ H'). reflexivity.
      * rewrite (array_or_wrap_throws _ H2). reflexivity.
    + rewrite (to_string_throws Number_toString _ H1). reflexivity.
Qed.

(** A record that [normalize] gives is built from the members of the
    body by the four member expressions. *)
Lemma normalize_inv (data : value) (res : AgentResponse) :
  normalize Number_toString data = Normal res ->
  (data <> VNull /\ data <> VUndefined)
  /\ to_string Number_toString (nullish_or (member data "analysis") (VString ""))
     = Normal (analysis res)
  /\ array_or_wrap Number_toString (member data "recommendations")
     = Normal (recommendations res)
  /\ confidence res = number_or_zero (member data "confidence")
  /\ array_or_wrap Number_toString (member data "next_steps")
     = Normal (next_steps res).
Proof.
  intro H.
  destruct (value_is_nullish data) as [Hnull|[Hn Hu]].
  - destruct Hnull; subst; discriminate.
  - split; [auto|]. rewrite (normalize_members Hn Hu) in H.
    destruct (to_string Number_toString _) as [a|]; cbn [bind] in H; [|discriminate].
    destruct (array_or_wrap Number_toString (member data "recommendations")) as [r|];
      cbn [bind] in H; [|discriminate].
    destruct (array_or_wrap Number_toString (member data "next_steps")) as [n|];
      cbn [bind] in H; [|discriminate].
    injection H as <-. cbn. auto.
Qed.

(** The three cases of [array_or_wrap], and when its result is an array
    of text. *)
Lemma array_or_wrap_cases (x : value) (l : list value) :
  array_or_wrap Number_toString x = Normal l ->
  (forall elems, x = VArray elems -> l = elems)
  /\ (is_array x = false -> to_boolean x = true ->
      exists s, to_string Number_toString x = Normal s /\ l = [VString s])
  /\ (is_array x = false -> to_boolean x = false -> l = [])
  /\ (forallb is_text l = true <->
      (forall elems, x = VArray elems -> forallb is_text elems = true)).
Proof.
  intro H. unfold array_or_wrap in H.
  destruct (is_array x) eqn:Harr.
  - destruct x; try discriminate. injection H as <-.
    repeat split; try discriminate.
    + intros ? [= <-]. reflexivity.
    + intros Ht ? [= <-]. exact Ht.
    + intros Ht. apply Ht. reflexivity.
  - assert (Hna : forall elems, x <> VArray elems) by (intros ? ->; discriminate).
    destruct (to_boolean x) eqn:Hb.
    + destruct (to_string Number_toString x) as [s|] eqn:Hs.
      * assert (l = [VString s]) as ->
          by (destruct x; try discriminate; cbn in H; congruence).
        repeat split; try discriminate; eauto;
          intros; exfalso; eapply Hna; eassumption.
      * destruct x; discriminate.
    + assert (l = []) as -> by (destruct x; try discriminate; congruence).
      repeat split; try discriminate; eauto;
        intros; exfalso; eapply Hna; eassumption.
Qed.

(** On a normalisable body the record is built member by member. *)
Lemma normalize_record (data : value) :
  normalizable data = true ->
  exists res,
    normalize Number_toString data = Normal res
    /\ to_string Number_toString (nullish_or (member data "analysis") (VString ""))
       = Normal (analysis res)
    /\ array_or_wrap Number_toString (member data "recommendations")
       = Normal (recommendations res)
    /\ confidence res = number_or_zero (member data "confidence")
    /\ array_or_wrap Number_toString (member data "next_steps")
       = Normal (next_steps res).
Proof.
  intro H. destruct (normalize_normalizable _ H) as (a & recs & steps & Hres).
  eexists. split; [exact Hres|].
  destruct (normalize_inv _ Hres) as (_ & Ha & Hr & Hc & Hn). auto.
Qed.

(** C5 (amended). In every record that [normalize] gives, the
    [recommendations] list and the [next_steps] list are computed from the
    raw member in three cases: an array is used as it is, its elements
    unchanged and not converted to text; a truthy value that is not an
    array becomes the one-element list of its text; a falsy value that is
    not an array (absent, [null], [""], [0], [NaN], [false]) becomes the
    empty list.  The list is therefore an array of text exactly when the
    raw member is not an array or is an array of text. *)
Theorem string_or_array_normalization (data : value) (res : AgentResponse) :
  normalize Number_toString data = Normal res ->
  let shape (x : value) (l : list value) :=
    (forall elems, x = VArray elems -> l = elems)
    /\ (is_array x = false -> to_boolean x = true ->
        exists s, to_string Number_toString x = Normal s /\ l = [VString s])
    /\ (is_array x = false -> to_boolean x = false -> l = [])
    /\ (forallb is_text l = true <->
        (forall elems, x = VArray elems -> forallb is_text elems = true)) in
  shape (member data "recommendations") (recommendations res)
  /\ shape (member data "next_steps") (next_steps res).
Proof.
  intros H shape.
  destruct (normalize_inv _ H) as (_ & _ & Hr & _ & Hn).
  split; apply array_or_wrap_cases; assumption.
Qed.

(** C8 (amended). On every body on which no member expression throws
    ([normalizable]: the body is not [null], its [analysis] converts to
    text, and each of [recommendations] and [next_steps] is an array, or
    falsy, or converts to text) normalisation gives a record, whose
    [analysis] is the text of the raw analysis ([""] when it is absent or
    [null]), whose [confidence] is the raw number or [0], and whose two
    lists are those of [array_or_wrap]. *)
Theorem normalize_succeeds_when_normalizable (data : value) :
  normalizable data = true ->
  exists res,
    normalize Number_toString data = Normal res
    /\ to_string Number_toString (nullish_or (member data "analysis") (VString ""))
       = Normal (analysis res)
    /\ array_or_wrap Number_toString (member data "recommendations")
       = Normal (recommendations res)
    /\ confidence res = number_or_zero (member data "confidence")
    /\ array_or_wrap Number_toString (member data "next_steps")
       = Normal (next_steps res).
Proof. exact (normalize_record data). Qed.

(** C9 (amended). When the [confidence] member of the body is not a
    number (a text, absent, anything else), the member expression gives
    [0] and cannot throw, and every record [normalize] gives for that body
    has confidence [0].  Whether a record is given does not depend on
    [confidence]: it is given when the other three member expressions
    evaluate, and otherwise [normalize] throws a [TypeError]. *)
Theorem non_numeric_confidence_is_zero (data c : value) :
  get_prop data "confidence" = Normal c ->
  type_of c <> TNumber ->
  number_or_zero c = 0%float
  /\ (forall res, normalize Number_toString data = Normal res ->
                  confidence res = 0%float)
  /\ (normalizable data = true ->
      exists res, normalize Number_toString data = Normal res
                  /\ confidence res = 0%float)
  /\ (normalizable data = false ->
      normalize Number_toString data = Throw TypeError).
Proof.
  intros Hc Hty.
  assert (Hz : number_or_zero c = 0%float)
    by (destruct c; try reflexivity; exfalso; apply Hty; reflexivity).
  apply get_prop_member in Hc.
  split; [exact Hz|]. split; [|split].
  - intros res Hres. destruct (normalize_inv _ Hres) as (_ & _ & _ & Hconf & _).
    rewrite Hconf, Hc. exact Hz.
  - intro Hn. destruct (normalize_normalizable _ Hn) as (a & recs & steps & Hres).
    eexists. split; [exact Hres|]. cbn. rewrite Hc. exact Hz.
  - apply normalize_not_normalizable.
Qed.

(** C10. A raw [recommendations] or [next_steps] member that is not an
    array and is falsy ([""], [0], [false], and also [-0], [NaN], [null],
    absent) gives the empty list: the member expression evaluates to [[]]
    without converting anything, every record [normalize] gives has [[]]
    in that field, and the record is given whenever the other member
    expressions evaluate.  A value that is not an array is wrapped into a
    one-element list, the text of the value, only when it is truthy. *)
Theorem falsy_non_array_gives_empty_list (data x : value) :
  is_array x = false ->
  to_boolean x = false ->
  array_or_wrap Number_toString x = Normal []
  /\ (get_prop data "recommendations" = Normal x ->
      (forall res, normalize Number_toString data = Normal res ->
                   recommendations res = [])
      /\ (normalizable data = true ->
          exists res, normalize Number_toString data = Normal res
                      /\ recommendations res = []))
  /\ (get_prop data "next_steps" = Normal x ->
      (forall res, normalize Number_toString data = Normal res ->
                   next_steps res = [])
      /\ (normalizable data = true ->
          exists res, normalize Number_toString data = Normal res
                      /\ next_steps res = []))
  /\ (forall y l, is_array y = false ->
        array_or_wrap Number_toString y = Normal l ->
        (to_boolean y = false /\ l = [])
        \/ (to_boolean y = true /\
            exists s, to_string Number_toString y = Normal s /\ l = [VString s])).
Proof.
  intros Harr Hfalsy.
  assert (Hx : array_or_wrap Number_toString x = Normal [])
    by (unfold array_or_wrap; rewrite Hfalsy; destruct x; try discriminate; reflexivity).
  split; [exact Hx|]. split; [|split].
  - intro Hget. apply get_prop_member in Hget. split.
    + intros res Hres. destruct (normalize_inv _ Hres) as (_ & _ & Hr & _).
      rewrite Hget in Hr. congruence.
    + intro Hn. destruct (normalize_record _ Hn)
        as (res & Hres & _ & Hr & _).
      exists res. split; [exact Hres|]. rewrite Hget in Hr. congruence.
  - intro Hget. apply get_prop_member in Hget. split.
    + intros res Hres. destruct (normalize_inv _ Hres) as (_ & _ & _ & _ & Hs).
      rewrite Hget in Hs. congruence.
    + intro Hn. destruct (normalize_record _ Hn)
        as (res & Hres & _ & _ & _ & Hs).
      exists res. split; [exact Hres|]. rewrite Hget in Hs. congruence.
  - intros y l Hy Hl. destruct (array_or_wrap_cases _ Hl) as (_ & Ht & Hf & _).
    destruct (to_boolean y); [right|left]; auto.
Qed.

End Host.

(** *** Closed instances *)

(** The three bodies the specification names. *)
Example normalize_text_recommendation :
  normalize example_engine (VObject [("recommendations", VString "x")])
  = Normal {| analysis := ""; recommendations := [VString "x"];
              confidence := 0; next_steps := [] |}.
Proof. reflexivity. Qed.

Example normalize_array_recommendations :
  normalize example_engine (VObject [("recommendations", VArray [VString "a"; VString "b"])])
  = Normal {| analysis := ""; recommendations := [VString "a"; VString "b"];
              confidence := 0; next_steps := [] |}.
Proof. reflexivity. Qed.

Example normalize_empty_object :
  normalize example_engine (VObject [])
  = Normal {| analysis := ""; recommendations := []; confidence := 0;
              next_steps := [] |}.
Proof. reflexivity. Qed.

(** C5, instance: the body [{recommendations: "x"}]. *)
Lemma string_or_array_normalization_witness :
  let data := VObject [("recommendations", VString "x")] in
  let res := {| analysis := ""; recommendations := [VString "x"];
                confidence := 0%float; next_steps := [] |} in
  normalize example_engine data = Normal res
  /\ (exists s, to_string example_engine (VString "x") = Normal s
                /\ recommendations res = [VString s])
  /\ next_steps res = [].
Proof.
  intros data res.
  destruct (string_or_array_normalization example_engine data (res := res) eq_refl)
    as [(_ & Hwrap & _) (_ & _ & Hempty & _)].
  split; [reflexivity|]. split.
  - apply Hwrap; reflexivity.
  - apply Hempty; reflexivity.
Defined.

(** C5 as stated fails: the elements of a raw array are not converted to
    text.  The body [{recommendations: [1, 2]}] keeps the two numbers. *)
Lemma array_elements_are_not_converted :
  normalize example_engine (VObject [("recommendations", VArray [VNumber 1; VNumber 2])])
  = Normal {| analysis := ""; recommendations := [VNumber 1; VNumber 2];
              confidence := 0; next_steps := [] |}
  /\ forallb is_text [VNumber 1; VNumber 2] = false.
Proof. split; reflexivity. Qed.

(** C8, instance: the empty object. *)
Lemma normalize_succeeds_when_normalizable_witness :
  normalizable (VObject []) = true
  /\ exists res, normalize example_engine (VObject []) = Normal res
                 /\ analysis res = "" /\ confidence res = 0%float.
Proof.
  split; [reflexivity|].
  destruct (normalize_succeeds_when_normalizable example_engine (VObject []) eq_refl)
    as (res & Hres & Ha & _ & Hc & _).
  exists res. split; [exact Hres|]. split.
  - cbn in Ha. congruence.
  - exact Hc.
Defined.

(** C8 as stated fails: the body [null] is decodable JSON, and reading
    its [analysis] throws. *)
Lemma normalize_null_throws :
  decoded VNull = true /\ normalize example_engine VNull = Throw TypeError.
Proof. split; reflexivity. Qed.

(** So does a body whose [analysis] is an object with a member named
    [toString]: its conversion to text throws. *)
Example normalize_shadowed_toString_throws :
  let data := VObject [("analysis", VObject [("toString", VNull)])] in
  decoded data = true /\ normalize example_engine data = Throw TypeError.
Proof. split; reflexivity. Qed.

(** C9 (amended), instance: the body [{confidence: "high"}]. *)
Lemma non_numeric_confidence_is_zero_witness :
  let data := VObject [("confidence", VString "high")] in
  get_prop data "confidence" = Normal (VString "high")
  /\ type_of (VString "high") <> TNumber
  /\ exists res, normalize example_engine data = Normal res /\ confidence res = 0%float.
Proof.
  intro data.
  assert (Hget : get_prop data "confidence" = Normal (VString "high")) by reflexivity.
  assert (Hty : type_of (VString "high") <> TNumber) by discriminate.
  split; [exact Hget|]. split; [exact Hty|].
  destruct (non_numeric_confidence_is_zero example_engine data Hget Hty)
    as (_ & _ & Hres & _).
  apply Hres. reflexivity.
Defined.

(** C9 as stated fails: the confidence is the text [high] and the
    analysis is an object with a member named [toString].  Converting the
    analysis to text throws, so that no record is produced, with
    confidence [0] or any other. *)
Lemma non_numeric_confidence_can_crash :
  let data :=
    VObject [("confidence", VString "high");
             ("analysis", VObject [("toString", VNull)])] in
  decoded data = true
  /\ get_prop data "confidence" = Normal (VString "high")
  /\ type_of (VString "high") = TString
  /\ normalize example_engine data = Throw TypeError.
Proof. repeat split; reflexivity. Qed.

(** C10, instance: the body [{recommendations: ""}]. *)
Lemma falsy_non_array_gives_empty_list_witness :
  let data := VObject [("recommendations", VString "")] in
  is_array (VString "") = false
  /\ to_boolean (VString "") = false
  /\ exists res, normalize example_engine data = Normal res /\ recommendations res = [].
Proof.
  intro data. split; [reflexivity|]. split; [reflexivity|].
  destruct (falsy_non_array_gives_empty_list example_engine data (VString "") eq_refl eq_refl)
    as (_ & Hrecs & _).
  destruct (Hrecs eq_refl) as [_ Hres]. apply Hres. reflexivity.
Defined.

(** The number [0] and [false] as well. *)
Example normalize_falsy_members :
  normalize example_engine
    (VObject [("recommendations", VNumber 0); ("next_steps", VBool false)])
  = Normal {| analysis := ""; recommendations := []; confidence := 0;
              next_steps := [] |}.
Proof. reflexivity. Qed.

End NormalizeSpec.

(** ** The page: search and product selection *)

Module HomeSpec.

Import JS Home.
Local Open Scope string_scope.
Local Open Scope list_scope.

(** Unfolding of the handler bodies. *)
Ltac run_handler :=
  unfold handleProductSelect_resume, handleSearch_resume, try_finally, try_catch,
    ebind, lift, set, ret, all4, await, bind.

Lemma decoded_body_fulfilled (fetched : settled Response) (v : value) :
  decoded_body fetched = Fulfilled v ->
  exists r, fetched = Fulfilled r /\ json r = Fulfilled v.
Proof. destruct fetched as [r|e]; cbn; [eauto|discriminate]. Qed.

(** When everything is delivered the four setters run, then the
    [finally]. *)
Lemma resume_delivers (f : Fetched) (s : State) (sales forecast' segs ins : value) :
  delivers f sales forecast' segs ins ->
  handleProductSelect_resume f s
  = (Normal tt,
     {| searchResults := searchResults s; selectedProduct := selectedProduct s;
        salesData := sales; forecast := forecast'; segments := segs;
        insights := ins; loading := false |}).
Proof.
  intros (gd & idata & Hs & Hf & Hg & Hi & Hsegs & Hins).
  apply decoded_body_fulfilled in Hs, Hf, Hg, Hi.
  destruct Hs as (rs & Hs & Hsj), Hf as (rf & Hf & Hfj),
           Hg as (rg & Hg & Hgj), Hi as (ri & Hi & Hij).
  run_handler. rewrite Hs, Hf, Hg, Hi, Hsj, Hfj, Hgj, Hij, Hsegs, Hins.
  reflexivity.
Qed.

(** When a fetch rejects or a body does not decode, no setter runs: only
    the [finally] does. *)
Lemma resume_rejected (f : Fetched) (s : State) :
  some_rejected f = true ->
  handleProductSelect_resume f s = (Normal tt, setLoading false s).
Proof.
  unfold some_rejected, decoded_body. intro H. run_handler.
  destruct (sales_fetch f) as [rs|]; [|reflexivity].
  destruct (forecast_fetch f) as [rf|]; [|reflexivity].
  destruct (segments_fetch f) as [rg|]; [|reflexivity].
  destruct (insights_fetch f) as [ri|]; [|reflexivity].
  destruct (json rs); [|reflexivity].
  destruct (json rf); [|reflexivity].
  destruct (json rg); [|reflexivity].
  destruct (json ri); [|reflexivity].
  discriminate.
Qed.

(** The continuation never rejects and never touches the selection or
    the search results; it always ends the loading. *)
Lemma resume_frame (f : Fetched) (s : State) :
  let s' := snd (handleProductSelect_resume f s) in
  fst (handleProductSelect_resume f s) = Normal tt
  /\ selectedProduct s' = selectedProduct s
  /\ searchResults s' = searchResults s
  /\ loading s' = false.
Proof.
  run_handler.
  destruct (sales_fetch f) as [rs|]; [|cbn; auto].
  destruct (forecast_fetch f) as [rf|]; [|cbn; auto].
  destruct (segments_fetch f) as [rg|]; [|cbn; auto].
  destruct (insights_fetch f) as [ri|]; [|cbn; auto].
  destruct (json rs); [|cbn; auto].
  destruct (json rf); [|cbn; auto].
  destruct (json rg) as [gd|]; [|cbn; auto].
  destruct (json ri) as [idata|]; [|cbn; auto].
  destruct (get_prop gd "segments"); [|cbn; auto].
  destruct (get_prop idata "insights"); cbn; auto.
Qed.

(** Two runs appended to the suspended ones, and their indices. *)
Section TwoAppended.

Context {A : Type} (l : list A) (a b : A).

Lemma nth_error_first_appended : nth_error (l ++ [a; b]) (List.length l) = Some a.
Proof. rewrite nth_error_app2, Nat.sub_diag by lia. reflexivity. Qed.

Lemma nth_error_second_appended : nth_error (l ++ [a; b]) (S (List.length l)) = Some b.
Proof.
  rewrite nth_error_app2 by lia.
  replace (S (List.length l) - List.length l) with 1 by lia. reflexivity.
Qed.

Lemma remove_first_appended : remove_at (List.length l) (l ++ [a; b]) = l ++ [b].
Proof.
  unfold remove_at. rewrite firstn_app, firstn_all, Nat.sub_diag.
  rewrite skipn_app, skipn_all2 by lia.
  replace (S (List.length l) - List.length l) with 1 by lia.
  cbn. rewrite app_nil_r. reflexivity.
Qed.

Lemma remove_second_appended : remove_at (S (List.length l)) (l ++ [a; b]) = l ++ [a].
Proof.
  unfold remove_at. rewrite firstn_app, firstn_all2 by lia.
  rewrite skipn_app, skipn_all2 by lia.
  replace (S (List.length l) - List.length l) with 1 by lia.
  replace (S (S (List.length l)) - List.length l) with 2 by lia.
  cbn. rewrite app_nil_r. reflexivity.
Qed.

Lemma nth_error_last_appended : nth_error (l ++ [a]) (List.length l) = Some a.
Proof. rewrite nth_error_app2, Nat.sub_diag by lia. reflexivity. Qed.

End TwoAppended.

(** The world after [A] then [B] were selected, and after the run at
    index [i] settles. *)
Lemma select_twice (w : World) (A B : Product) :
  run w [Select A; Select B]
  = {| view := setLoading true
                 (setSelectedProduct (Some B)
                    (setLoading true (setSelectedProduct (Some A) (view w))));
       calls := (calls w ++ product_requests A) ++ product_requests B;
       searches := searches w;
       selections := selections w ++ [A; B] |}.
Proof.
  cbn [run fold_left step]. unfold handleProductSelect. cbn [view calls searches selections].
  rewrite <- (app_assoc (selections w)). reflexivity.
Qed.

Lemma settle_at (w : World) (i : nat) (p : Product) (f : Fetched) :
  nth_error (selections w) i = Some p ->
  step w (SelectionSettles i f)
  = {| view := snd (handleProductSelect_resume f (view w));
       calls := calls w;
       searches := searches w;
       selections := remove_at i (selections w) |}.
Proof. intro H. cbn [step]. rewrite H. reflexivity. Qed.

(** The view after [A] then [B] were selected and both runs settled, [A]'s
    first. *)
Lemma view_A_then_B (w : World) (A B : Product) (fA fB : Fetched) :
  view (run (run w [Select A; Select B])
            [SelectionSettles (List.length (selections w)) fA;
             SelectionSettles (List.length (selections w)) fB])
  = snd (handleProductSelect_resume fB
      (snd (handleProductSelect_resume fA (view (run w [Select A; Select B]))))).
Proof.
  rewrite select_twice. cbn [run fold_left].
  rewrite (settle_at _ _ (p := A) fA) by apply nth_error_first_appended.
  cbn [view calls searches selections]. rewrite remove_first_appended.
  rewrite (settle_at _ _ (p := B) fB) by apply nth_error_last_appended.
  reflexivity.
Qed.

(** The same with [B]'s run settling first. *)
Lemma view_B_then_A (w : World) (A B : Product) (fA fB : Fetched) :
  view (run (run w [Select A; Select B])
            [SelectionSettles (S (List.length (selections w))) fB;
             SelectionSettles (List.length (selections w)) fA])
  = snd (handleProductSelect_resume fA
      (snd (handleProductSelect_resume fB (view (run w [Select A; Select B]))))).
Proof.
  rewrite select_twice. cbn [run fold_left].
  rewrite (settle_at _ _ (p := B) fB) by apply nth_error_second_appended.
  cbn [view calls searches selections]. rewrite remove_second_appended.
  rewrite (settle_at _ _ (p := A) fA) by apply nth_error_last_appended.
  reflexivity.
Qed.

(** C1 (amended). After [A] then [B] are selected and both runs settle,
    in either order and whatever the fetches gave, the selected product is
    [B].  The four analytics fields are those of the run that settles
    last, when it delivers: [B]'s when [B]'s run settles last, and [A]'s
    when [A]'s run settles last, for nothing ties a run to the selection
    that is current when it settles.  A run in which a fetch rejects or a
    body does not decode writes no field, so when [B]'s run settles last
    and fails, what [A]'s run delivered stays in the view. *)
Theorem last_settled_selection_wins (w : World) (A B : Product) (fA fB : Fetched) :
  let n := List.length (selections w) in
  let selected := run w [Select A; Select B] in
  let A_then_B :=
    view (run selected [SelectionSettles n fA; SelectionSettles n fB]) in
  let B_then_A :=
    view (run selected [SelectionSettles (S n) fB; SelectionSettles n fA]) in
  selectedProduct A_then_B = Some B
  /\ selectedProduct B_then_A = Some B
  /\ (forall sales fc segs ins,
        delivers fB sales fc segs ins ->
        analytics A_then_B = (sales, fc, segs, ins))
  /\ (forall sales fc segs ins,
        delivers fA sales fc segs ins ->
        analytics B_then_A = (sales, fc, segs, ins))
  /\ (forall sales fc segs ins,
        delivers fA sales fc segs ins -> some_rejected fB = true ->
        analytics A_then_B = (sales, fc, segs, ins)).
Proof.
  intros n selected A_then_B B_then_A.
  subst A_then_B B_then_A selected n.
  rewrite view_A_then_B, view_B_then_A, select_twice. cbn [view].
  set (s0 := setLoading true (setSelectedProduct (Some B) _)).
  assert (Hsel : selectedProduct s0 = Some B) by reflexivity.
  repeat split.
  - destruct (resume_frame fB (snd (handleProductSelect_resume fA s0))) as (_ & -> & _).
    destruct (resume_frame fA s0) as (_ & -> & _). exact Hsel.
  - destruct (resume_frame fA (snd (handleProductSelect_resume fB s0))) as (_ & -> & _).
    destruct (resume_frame fB s0) as (_ & -> & _). exact Hsel.
  - intros sales fc segs ins H. rewrite (resume_delivers _ H). reflexivity.
  - intros sales fc segs ins H. rewrite (resume_delivers _ H). reflexivity.
  - intros sales fc segs ins H Hrej.
    rewrite (resume_rejected _ _ Hrej), (resume_delivers _ H). reflexivity.
Qed.

(** C2 (amended). When the four fetches of a selection fulfil, the four
    bodies decode and the members [segments] and [insights] can be read,
    the four fields are set.  When one fetch rejects or one body does not
    decode, no field is set, whatever the other three gave, and only
    [loading] is reset.  In both cases the handler itself does not
    reject. *)
Theorem selection_commit_needs_all_four (f : Fetched) (s : State) :
  (forall sales fc segs ins,
     delivers f sales fc segs ins ->
     handleProductSelect_resume f s
     = (Normal tt,
        {| searchResults := searchResults s; selectedProduct := selectedProduct s;
           salesData := sales; forecast := fc; segments := segs;
           insights := ins; loading := false |}))
  /\ (some_rejected f = true ->
      handleProductSelect_resume f s = (Normal tt, setLoading false s)).
Proof.
  split.
  - intros sales fc segs ins H. apply resume_delivers. exact H.
  - apply resume_rejected.
Qed.

(** C3 (amended). Selecting a product whose run is still suspended
    issues the four calls again, after those already made, and suspends a
    second run beside the first; [k] selections in a row issue [4 * k]
    calls. *)
Theorem reselection_issues_four_more_calls (w : World) (p : Product) :
  In p (selections w) ->
  calls (step w (Select p)) = calls w ++ product_requests p
  /\ List.length (calls (step w (Select p))) = List.length (calls w) + 4
  /\ selections (step w (Select p)) = selections w ++ [p]
  /\ (forall k, List.length (calls (run w (repeat (Select p) k)))
                = List.length (calls w) + 4 * k).
Proof.
  intros _. cbn [step]. unfold handleProductSelect. cbn [calls selections].
  repeat split.
  - rewrite length_app. reflexivity.
  - intro k. revert w. induction k as [|k IH]; intro w.
    + cbn. lia.
    + cbn [repeat run fold_left]. fold (run (step w (Select p)) (repeat (Select p) k)).
      rewrite IH. cbn [step]. unfold handleProductSelect. cbn [calls].
      rewrite length_app. cbn [product_requests List.length]. lia.
Qed.


(** *** Closed instances *)

Lemma delivers_answers_for (id : string) :
  delivers (answers_for id)
           (VObject [("product_id", VString id)]) (VObject [("trend", VString id)])
           (VString id) (VString id).
Proof.
  exists (VObject [("segments", VString id)]), (VObject [("insights", VString id)]).
  repeat split; reflexivity.
Defined.

(** C1, instance: nike then adidas, settling in the order of selection. *)
Lemma last_settled_selection_wins_witness :
  let w := run (run (run start failed_search) [Select nike; Select adidas])
               [SelectionSettles 0 (answers_for (product_id nike));
                SelectionSettles 0 (answers_for (product_id adidas))] in
  selectedProduct (view w) = Some adidas
  /\ analytics (view w)
     = (VObject [("product_id", VString "adidas_ultraboost_22")],
        VObject [("trend", VString "adidas_ultraboost_22")],
        VString "adidas_ultraboost_22", VString "adidas_ultraboost_22").
Proof.
  intro w.
  destruct (last_settled_selection_wins (run start failed_search) nike adidas
              (answers_for (product_id nike)) (answers_for (product_id adidas)))
    as (Hsel & _ & Hfields & _).
  split.
  - exact Hsel.
  - exact (Hfields _ _ _ _ (delivers_answers_for (product_id adidas))).
Defined.

(** C1 as stated fails: nike then adidas are selected, the run of adidas
    settles first and the run of nike last.  The page then shows adidas
    as the selected product with the four values fetched for nike. *)
Lemma stale_run_overwrites_current_selection :
  let w := run start
             (failed_search ++
              [Select nike; Select adidas;
               SelectionSettles 1 (answers_for (product_id adidas));
               SelectionSettles 0 (answers_for (product_id nike))]) in
  selections w = []
  /\ selectedProduct (view w) = Some adidas
  /\ analytics (view w)
     = (VObject [("product_id", VString "nike_air_max_270")],
        VObject [("trend", VString "nike_air_max_270")],
        VString "nike_air_max_270", VString "nike_air_max_270").
Proof. repeat split; reflexivity. Qed.

(** C2, instance: the four answers for nike, from the initial state. *)
Lemma selection_commit_needs_all_four_witness :
  handleProductSelect_resume (answers_for (product_id nike)) initial
  = (Normal tt,
     {| searchResults := VArray []; selectedProduct := None;
        salesData := VObject [("product_id", VString "nike_air_max_270")];
        forecast := VObject [("trend", VString "nike_air_max_270")];
        segments := VString "nike_air_max_270";
        insights := VString "nike_air_max_270";
        loading := false |})
  /\ some_rejected (answers_without_forecast (product_id nike)) = true
  /\ handleProductSelect_resume (answers_without_forecast (product_id nike)) initial
     = (Normal tt, setLoading false initial).
Proof.
  split; [|split].
  - exact (proj1 (selection_commit_needs_all_four (answers_for (product_id nike)) initial)
             _ _ _ _ (delivers_answers_for (product_id nike))).
  - reflexivity.
  - exact (proj2 (selection_commit_needs_all_four
                    (answers_without_forecast (product_id nike)) initial) eq_refl).
Defined.

(** C2 as stated fails: nike is selected and the forecast fetch fails
    on the network while the other three answer.  None of the three
    answers reaches the view: sales stays [null], segments the empty
    array and insights the empty text. *)
Lemma one_failed_fetch_discards_the_other_three :
  let f := answers_without_forecast (product_id nike) in
  let w := run start (failed_search ++ [Select nike; SelectionSettles 0 f]) in
  decoded_body (sales_fetch f)
    = Fulfilled (VObject [("product_id", VString "nike_air_max_270")])
  /\ selectedProduct (view w) = Some nike
  /\ analytics (view w) = (VNull, VNull, VArray [], VString "")
  /\ loading (view w) = false.
Proof. repeat split; reflexivity. Qed.

(** Between the two: the four bodies decode but the segments body is
    [null].  Reading its member throws after the first two setters have
    run, so sales and forecast are set and the other two fields are
    not. *)
Example null_segments_body_sets_two_fields :
  let f := {| sales_fetch := text_member_response "product_id" "nike_air_max_270";
              forecast_fetch := text_member_response "trend" "nike_air_max_270";
              segments_fetch := json_response "null" VNull;
              insights_fetch := text_member_response "insights" "nike_air_max_270" |} in
  some_rejected f = false
  /\ analytics (snd (handleProductSelect_resume f initial))
     = (VObject [("product_id", VString "nike_air_max_270")],
        VObject [("trend", VString "nike_air_max_270")],
        VArray [], VString "").
Proof. split; reflexivity. Qed.

(** C3, instance: nike is selected again while its run is suspended. *)
Lemma reselection_issues_four_more_calls_witness :
  let w := run start (failed_search ++ [Select nike]) in
  In nike (selections w)
  /\ calls (step w (Select nike)) = calls w ++ product_requests nike
  /\ selections (step w (Select nike)) = [nike; nike].
Proof.
  intro w.
  assert (Hin : In nike (selections w)) by (left; reflexivity).
  destruct (reselection_issues_four_more_calls w nike Hin) as (Hcalls & _ & Hsel & _).
  split; [exact Hin|]. split; [exact Hcalls|]. exact Hsel.
Defined.

(** C3 as stated fails: selecting nike twice leaves two runs suspended
    and eight product calls made, after the one of the search. *)
Lemma selecting_twice_issues_eight_calls :
  let w := run start (failed_search ++ [Select nike; Select nike]) in
  selections w = [nike; nike]
  /\ calls w
     = search_request "running shoes" :: product_requests nike ++ product_requests nike
  /\ List.length (product_requests nike ++ product_requests nike) = 8.
Proof. repeat split; reflexivity. Qed.


(** A fetch that rejects gives the same. *)
Example search_network_failure :
  view (run start [Submit "running shoes"; SearchSettles 0 (Rejected NetworkError)])
  = setSearchResults (VArray (map product_value mockResults)) initial.
Proof. reflexivity. Qed.

End HomeSpec.

(** ** The agent session: queries and suggestions *)

Module SessionSpec.

Import JS AIAgent.
Local Open Scope string_scope.
Local Open Scope list_scope.

Section Host.

Variable Number_toString : float -> string.

Local Abbreviation step := (AIAgent.step Number_toString).
Local Abbreviation run := (AIAgent.run Number_toString).

(** An event of the user suspends handlers after those already
    suspended, and calls [fetch] once for each. *)
Lemma user_event_appends (w : World) (e : Event) :
  is_settle e = false ->
  exists started,
    in_flight (step w e) = in_flight w ++ started
    /\ calls (step w e) = calls w ++ map snd started.
Proof.
  intro He.
  assert (Hsame : forall w', in_flight w' = in_flight w -> calls w' = calls w ->
            exists started, in_flight w' = in_flight w ++ started
                            /\ calls w' = calls w ++ map snd started).
  { intros w' -> ->. exists []. cbn. rewrite !app_nil_r. auto. }
  assert (Hquery : exists started,
            in_flight (handleAgentQuery w) = in_flight w ++ started
            /\ calls (handleAgentQuery w) = calls w ++ map snd started).
  { unfold handleAgentQuery. destruct (String.eqb _ ""); [apply Hsame; reflexivity|].
    eexists [_]. cbn. split; reflexivity. }
  destruct e; try discriminate; cbn [step].
  - destruct (activeTab (state w)); apply Hsame; reflexivity.
  - destruct (activeTab (state w)); [exact Hquery|apply Hsame; reflexivity].
  - destruct (activeTab (state w)); [|apply Hsame; reflexivity].
    destruct (send_disabled (state w)); [apply Hsame; reflexivity|exact Hquery].
  - apply Hsame; reflexivity.
  - destruct (to_boolean (suggestions (state w))); [apply Hsame; reflexivity|].
    eexists [_]. cbn. split; reflexivity.
  - apply Hsame; reflexivity.
Qed.

(** C7 (amended). Once a truthy suggestions result is stored, switching
    between the two tabs, any number of times, calls [fetch] no more,
    suspends nothing and keeps the result.  While none is stored (before
    the first answer, or after a failed one), every click on the
    suggestions tab calls the suggestions endpoint once more. *)
Theorem suggestions_fetched_until_stored (w : World) :
  (to_boolean (suggestions (state w)) = true ->
   forall clicks, forallb is_tab_click clicks = true ->
     calls (run w clicks) = calls w
     /\ in_flight (run w clicks) = in_flight w
     /\ suggestions (state (run w clicks)) = suggestions (state w))
  /\ (to_boolean (suggestions (state w)) = false ->
      calls (step w ClickSuggestions)
      = calls w ++ [suggestions_request (productId w)]
      /\ in_flight (step w ClickSuggestions)
         = in_flight w ++ [(Suggestions, suggestions_request (productId w))]).
Proof.
  split.
  - intros Hstored clicks. revert w Hstored.
    induction clicks as [|e clicks IH]; intros w Hstored Hclicks; [cbn; auto|].
    cbn [forallb] in Hclicks. apply andb_prop in Hclicks. destruct Hclicks as [He Hrest].
    cbn [AIAgent.run fold_left]. fold (run (step w e) clicks).
    assert (Hstep : calls (step w e) = calls w
                    /\ in_flight (step w e) = in_flight w
                    /\ suggestions (state (step w e)) = suggestions (state w)).
    { destruct e; try discriminate; cbn [AIAgent.step].
      - cbn. auto.
      - rewrite Hstored. cbn. auto. }
    destruct Hstep as (Hc & Hf & Hs).
    destruct (IH (step w e)) as (Hc' & Hf' & Hs'); [congruence|exact Hrest|].
    repeat split; congruence.
  - intro Hnone. cbn [AIAgent.step]. rewrite Hnone. cbn. auto.
Qed.

End Host.

(** *** Closed instances *)

(** C6, the code at the failing input.  The question is pending and the
    component is loading.  Pressing Enter again calls [handleAgentQuery],
    which looks at the query only: a second request for the same
    question is sent and suspended beside the first, and nothing is
    rejected.  The send button does look at [loading], but the flag is
    shared with the suggestions: when the suggestions tab is opened and
    its answer arrives, [loading] goes back to [false] with the question
    still pending, the button is enabled again, and a click on it sends
    the question a second time as well. *)
Theorem second_query_starts_while_first_is_pending :
  let request :=
    analyze_request "Should I increase the price?" "nike_air_max_270" in
  let again := AIAgent.step example_engine asked PressEnter in
  let detour :=
    AIAgent.run example_engine asked
                [ClickSuggestions; Settle 1 suggestions_answer; ClickChat] in
  let clicked := AIAgent.step example_engine detour ClickSend in
  (loading (state asked) = true
   /\ in_flight asked = [(AgentQuery, request)]
   /\ calls asked = [request])
  /\ (in_flight again = [(AgentQuery, request); (AgentQuery, request)]
      /\ calls again = [request; request]
      /\ agentResponse (state again) = agentResponse (state asked))
  /\ (in_flight detour = [(AgentQuery, request)]
      /\ loading (state detour) = false
      /\ send_disabled (state detour) = false
      /\ in_flight clicked = [(AgentQuery, request); (AgentQuery, request)]
      /\ calls clicked
         = [request; suggestions_request "nike_air_max_270"; request]).
Proof. repeat split; reflexivity. Qed.

(** The guard that the Enter key lacks: while [loading] a click on the
    send button changes nothing. *)
Example send_button_is_disabled_while_loading :
  loading (state asked) = true
  /\ AIAgent.step example_engine asked ClickSend = asked.
Proof. split; reflexivity. Qed.

(** C7, instance: with the answer stored, the tabs are switched three
    times. *)
Lemma suggestions_fetched_until_stored_witness :
  let clicks := [ClickChat; ClickSuggestions; ClickSuggestions] in
  to_boolean (suggestions (state suggested)) = true
  /\ forallb is_tab_click clicks = true
  /\ calls (AIAgent.run example_engine suggested clicks)
     = [suggestions_request "nike_air_max_270"]
  /\ in_flight (AIAgent.run example_engine suggested clicks) = [].
Proof.
  intro clicks.
  destruct (proj1 (suggestions_fetched_until_stored example_engine suggested)
              eq_refl clicks eq_refl) as (Hcalls & Hflight & _).
  split; [reflexivity|]. split; [reflexivity|]. split.
  - rewrite Hcalls. reflexivity.
  - rewrite Hflight. reflexivity.
Defined.

(** C7 as stated fails: the suggestions tab is clicked twice before the
    first answer arrives.  Both clicks call the suggestions endpoint, for
    the same product. *)
Lemma two_clicks_fetch_suggestions_twice :
  let request := suggestions_request "nike_air_max_270" in
  let w := AIAgent.run example_engine (mount "nike_air_max_270")
                       [ClickSuggestions; ClickSuggestions] in
  productId w = "nike_air_max_270"
  /\ calls w = [request; request]
  /\ in_flight w = [(Suggestions, request); (Suggestions, request)].
Proof. repeat split; reflexivity. Qed.

End SessionSpec.

(** ** Text helpers: [trim] and [includes] *)

Module TextFacts.

Import JS InsightsPanel.
Local Open Scope string_scope.

(** *** Induction on the length of a text *)

Lemma shorter_first (P : string -> Prop) :
  (forall s, (forall t, String.length t < String.length s -> P t) -> P s) ->
  forall s, P s.
Proof.
  intros step s.
  assert (H : forall n t, String.length t < n -> P t).
  { induction n as [|n IH]; intros t Ht; [lia|].
    apply step. intros u Hu. apply IH. lia. }
  apply (H (S (String.length s))). lia.
Qed.

(** *** The white space characters, byte by byte *)

Ltac split_bytes :=
  repeat match goal with
  | H : (_ || _) = true |- _ => apply orb_prop in H; destruct H as [H|H]
  | H : (_ && _) = true |- _ =>
      let H' := fresh H in apply andb_prop in H; destruct H as [H H']
  | H : Ascii.eqb _ _ = true |- _ => apply Ascii.eqb_eq in H; subst
  end.

Lemma white_space_pair_high (c1 c2 : ascii) :
  white_space_pair c1 c2 = true -> is_high c1 = true /\ is_high c2 = true.
Proof. unfold white_space_pair. intro H. split_bytes. split; reflexivity. Qed.

Lemma white_space_triple_high (c1 c2 c3 : ascii) :
  white_space_triple c1 c2 c3 = true ->
  is_high c1 = true /\ is_high c2 = true /\ is_high c3 = true.
Proof.
  unfold white_space_triple. cbv zeta. intro H. split_bytes;
    repeat split; solve [reflexivity | assumption].
Qed.

Lemma is_bullet_high (c1 c2 c3 : ascii) :
  is_bullet c1 c2 c3 = true ->
  is_high c1 = true /\ is_high c2 = true /\ is_high c3 = true.
Proof. unfold is_bullet. intro H. split_bytes. repeat split; reflexivity. Qed.

(** Two bytes that a test tells apart differ. *)
Lemma told_apart (p : ascii -> bool) (k c : ascii) :
  p k = false -> p c = true -> Ascii.eqb k c = false.
Proof.
  intros Hk Hc. destruct (Ascii.eqb_spec k c) as [->|]; [congruence|reflexivity].
Qed.

(** *** [trim_start], case by case *)

Lemma trim_start_byte (c : ascii) (rest : string) :
  white_space_byte c = true -> trim_start (String c rest) = trim_start rest.
Proof. cbn [trim_start]. intros ->. reflexivity. Qed.

Lemma trim_start_pair (c c2 : ascii) (rest : string) :
  white_space_byte c = false -> white_space_pair c c2 = true ->
  trim_start (String c (String c2 rest)) = trim_start rest.
Proof. cbn [trim_start]. intros -> ->. reflexivity. Qed.

Lemma trim_start_triple (c c2 c3 : ascii) (rest : string) :
  white_space_byte c = false -> white_space_pair c c2 = false ->
  white_space_triple c c2 c3 = true ->
  trim_start (String c (String c2 (String c3 rest))) = trim_start rest.
Proof. cbn [trim_start]. intros -> -> ->. reflexivity. Qed.

Lemma trim_start_fixed (s : string) :
  starts_with_white_space s = false -> trim_start s = s.
Proof.
  destruct s as [|c rest]; [reflexivity|].
  cbn [starts_with_white_space trim_start]. intro H.
  apply orb_false_elim in H. destruct H as [Hb H]. rewrite Hb.
  destruct rest as [|c2 rest2]; [reflexivity|].
  apply orb_false_elim in H. destruct H as [Hp H]. rewrite Hp.
  destruct rest2 as [|c3 rest3]; [reflexivity|]. rewrite H. reflexivity.
Qed.

(** A text starts with no white space, or with a white space character
    of one, two or three bytes. *)
Lemma white_space_cases (P : string -> Prop) :
  (forall s, starts_with_white_space s = false -> P s) ->
  (forall c rest, white_space_byte c = true -> P rest -> P (String c rest)) ->
  (forall c c2 rest,
      white_space_byte c = false -> white_space_pair c c2 = true ->
      P rest -> P (String c (String c2 rest))) ->
  (forall c c2 c3 rest,
      white_space_byte c = false -> white_space_pair c c2 = false ->
      white_space_triple c c2 c3 = true ->
      P rest -> P (String c (String c2 (String c3 rest)))) ->
  forall s, P s.
Proof.
  intros Hnone Hbyte Hpair Htriple. apply shorter_first. intros s IH.
  destruct (starts_with_white_space s) eqn:E; [|apply Hnone, E].
  destruct s as [|c rest]; [discriminate|]. cbn [starts_with_white_space] in E.
  destruct (white_space_byte c) eqn:Hb.
  - apply Hbyte; [exact Hb|]. apply IH. cbn [String.length]. lia.
  - cbn [orb] in E. destruct rest as [|c2 rest2]; [discriminate|].
    destruct (white_space_pair c c2) eqn:Hp.
    + apply Hpair; [exact Hb|exact Hp|]. apply IH. cbn [String.length]. lia.
    + cbn [orb] in E. destruct rest2 as [|c3 rest3]; [discriminate|].
      apply Htriple; [exact Hb|exact Hp|exact E|]. apply IH. cbn [String.length]. lia.
Qed.

(** What [trim_start] returns starts with no white space. *)
Lemma trim_start_settled (s : string) :
  starts_with_white_space (trim_start s) = false.
Proof.
  pattern s. revert s. apply white_space_cases.
  - intros s H. rewrite trim_start_fixed; exact H.
  - intros c rest Hc IH. rewrite trim_start_byte; assumption.
  - intros c c2 rest Hc Hp IH. rewrite trim_start_pair; assumption.
  - intros c c2 c3 rest Hc Hp Ht IH. rewrite trim_start_triple; assumption.
Qed.

(** White space before a text does not change what [trim_start] gives. *)
Lemma trim_start_app (a b : string) :
  blank a = true -> trim_start (a ++ b) = trim_start b.
Proof.
  intro Hblank. revert Hblank. pattern a. revert a. apply white_space_cases; unfold blank.
  - intros s Hs Hblank. rewrite trim_start_fixed in Hblank by exact Hs.
    apply String.eqb_eq in Hblank. subst s. reflexivity.
  - intros c rest Hc IH Hblank. rewrite trim_start_byte in Hblank by exact Hc.
    cbn [append]. rewrite trim_start_byte by exact Hc. exact (IH Hblank).
  - intros c c2 rest Hc Hp IH Hblank.
    rewrite trim_start_pair in Hblank by assumption.
    cbn [append]. rewrite trim_start_pair by assumption. exact (IH Hblank).
  - intros c c2 c3 rest Hc Hp Ht IH Hblank.
    rewrite trim_start_triple in Hblank by assumption.
    cbn [append]. rewrite trim_start_triple by assumption. exact (IH Hblank).
Qed.

Lemma blank_app (a b : string) :
  blank a = true -> blank b = true -> blank (a ++ b) = true.
Proof. intros Ha Hb. unfold blank. rewrite trim_start_app by exact Ha. exact Hb. Qed.

(** *** [trim_end] cuts a blank tail off *)

Lemma trim_end_blank (s : string) : blank s = true -> trim_end s = "".
Proof. destruct s as [|c rest]; [reflexivity|]. cbn [trim_end]. intros ->. reflexivity. Qed.

Lemma trim_end_cons (c : ascii) (rest : string) :
  blank (String c rest) = false ->
  trim_end (String c rest) = String c (trim_end rest).
Proof. cbn [trim_end]. intros ->. reflexivity. Qed.

Lemma trim_end_split (s : string) :
  exists tail, s = trim_end s ++ tail /\ blank tail = true.
Proof.
  induction s as [|c rest (tail & Hs & Ht)]; [exists ""; split; reflexivity|].
  destruct (blank (String c rest)) eqn:E.
  - rewrite trim_end_blank by exact E. exists (String c rest). split; [reflexivity|exact E].
  - rewrite trim_end_cons by exact E. exists tail. split; [|exact Ht].
    cbn [append]. f_equal. exact Hs.
Qed.

Lemma blank_trim_end (s : string) : blank (trim_end s) = true -> blank s = true.
Proof.
  intro H. destruct (trim_end_split s) as (tail & Hs & Ht).
  rewrite Hs. apply blank_app; assumption.
Qed.

Lemma trim_end_idempotent (s : string) : trim_end (trim_end s) = trim_end s.
Proof.
  induction s as [|c rest IH]; [reflexivity|].
  destruct (blank (String c rest)) eqn:E.
  - rewrite (@trim_end_blank (String c rest) E). reflexivity.
  - assert (Hkept : blank (trim_end (String c rest)) = false).
    { destruct (blank (trim_end (String c rest))) eqn:E'; [|reflexivity].
      apply blank_trim_end in E'. congruence. }
    rewrite (@trim_end_cons c rest E) in *.
    rewrite (@trim_end_cons c (trim_end rest) Hkept), IH. reflexivity.
Qed.

Lemma starts_with_white_space_app (a b : string) :
  starts_with_white_space a = true -> starts_with_white_space (a ++ b) = true.
Proof.
  destruct a as [|c rest]; [discriminate|].
  cbn [starts_with_white_space append].
  destruct (white_space_byte c); [reflexivity|]. cbn [orb].
  destruct rest as [|c2 rest2]; [discriminate|]. cbn [append].
  destruct (white_space_pair c c2); [reflexivity|]. cbn [orb].
  destruct rest2 as [|c3 rest3]; [discriminate|]. cbn [append]. auto.
Qed.

Lemma trim_end_settled (s : string) :
  starts_with_white_space s = false ->
  starts_with_white_space (trim_end s) = false.
Proof.
  intro H. destruct (starts_with_white_space (trim_end s)) eqn:E; [|reflexivity].
  destruct (trim_end_split s) as (tail & Hs & _).
  apply starts_with_white_space_app with (b := tail) in E.
  rewrite <- Hs in E. congruence.
Qed.

(** [trim] twice is [trim] once. *)
Lemma trim_idempotent (s : string) : trim (trim s) = trim s.
Proof.
  unfold trim.
  rewrite (trim_start_fixed (trim_end (trim_start s))).
  - apply trim_end_idempotent.
  - apply trim_end_settled, trim_start_settled.
Qed.


(** *** [includes] and [prefix] *)

Lemma includes_cons (c : ascii) (s needle : string) :
  includes (String c s) needle = prefix needle (String c s) || includes s needle.
Proof. reflexivity. Qed.

Lemma includes_tail (c : ascii) (s needle : string) :
  includes s needle = true -> includes (String c s) needle = true.
Proof. intro H. rewrite includes_cons, H. apply orb_true_r. Qed.

Lemma prefix_cons (a b : ascii) (s1 s2 : string) :
  prefix (String a s1) (String b s2) = Ascii.eqb a b && prefix s1 s2.
Proof.
  cbn [prefix]. destruct (ascii_dec a b) as [->|Hab].
  - rewrite Ascii.eqb_refl. reflexivity.
  - apply Ascii.eqb_neq in Hab. rewrite Hab. reflexivity.
Qed.

Lemma prefix_bold (c : ascii) (s : string) :
  prefix "**" (String c s) = is_star c && head_is is_star s.
Proof.
  unfold is_star. rewrite prefix_cons, (Ascii.eqb_sym "*" c).
  destruct s as [|d rest]; [reflexivity|].
  rewrite prefix_cons, (Ascii.eqb_sym "*" d). cbn [head_is].
  destruct rest; destruct (Ascii.eqb c "*"), (Ascii.eqb d "*"); reflexivity.
Qed.

Lemma includes_bold_cons (c : ascii) (s : string) :
  includes (String c s) "**" = (is_star c && head_is is_star s) || includes s "**".
Proof. rewrite includes_cons, prefix_bold. reflexivity. Qed.

Lemma prefix_empty (s : string) : prefix "" s = true.
Proof. destruct s; reflexivity. Qed.

Lemma prefix_of_empty (w : string) : prefix w "" = true -> w = "".
Proof. destruct w; [reflexivity|discriminate]. Qed.

Lemma includes_empty (w : string) : includes "" w = true -> w = "".
Proof. cbn [includes]. rewrite orb_false_r. apply prefix_of_empty. Qed.

Lemma includes_of_empty (s : string) : includes s "" = true.
Proof. destruct s; reflexivity. Qed.

Lemma includes_prefix (s w : string) : prefix w s = true -> includes s w = true.
Proof. intro H. destruct s; cbn [includes]; rewrite H; reflexivity. Qed.

Lemma includes_cons_inv (c : ascii) (s w : string) :
  includes (String c s) w = true ->
  prefix w (String c s) = true \/ includes s w = true.
Proof. rewrite includes_cons. apply orb_prop. Qed.

Lemma includes_word_inv (c k : ascii) (s w : string) :
  Ascii.eqb k c = false ->
  includes (String c s) (String k w) = true -> includes s (String k w) = true.
Proof.
  intros Hk H. apply includes_cons_inv in H. destruct H as [H|H]; [|exact H].
  rewrite prefix_cons, Hk in H. discriminate.
Qed.

Lemma not_empty_word (s w : string) :
  String.eqb w "" = false -> includes s w = true -> s <> "".
Proof.
  intros Hw H ->. apply includes_empty in H. subst w. discriminate.
Qed.

Lemma prefix_app (w a b : string) :
  prefix w a = true -> prefix w (a ++ b) = true.
Proof.
  revert a. induction w as [|k w' IH]; intros a H; [apply prefix_empty|].
  destruct a as [|c rest]; [discriminate|].
  cbn [append]. rewrite prefix_cons in *.
  apply andb_prop in H. destruct H as [Hk Hw']. rewrite Hk, (IH rest Hw'). reflexivity.
Qed.

Lemma includes_app (a b w : string) :
  includes a w = true -> includes (a ++ b) w = true.
Proof.
  induction a as [|c rest IH]; intro H.
  - apply includes_empty in H. subst w. apply includes_of_empty.
  - cbn [append]. apply includes_cons_inv in H. destruct H as [H|H].
    + apply includes_prefix. exact (prefix_app _ (String c rest) b H).
    + apply includes_tail, IH, H.
Qed.

(** *** What is found after trimming was there before *)

Lemma includes_trim_start (s needle : string) :
  includes (trim_start s) needle = true -> includes s needle = true.
Proof.
  pattern s. revert s. apply white_space_cases.
  - intros s Hs. rewrite trim_start_fixed by exact Hs. auto.
  - intros c rest Hc IH. rewrite trim_start_byte by exact Hc.
    intro H. apply includes_tail, IH, H.
  - intros c c2 rest Hc Hp IH. rewrite trim_start_pair by assumption.
    intro H. do 2 apply includes_tail. exact (IH H).
  - intros c c2 c3 rest Hc Hp Ht IH. rewrite trim_start_triple by assumption.
    intro H. do 3 apply includes_tail. exact (IH H).
Qed.

Lemma includes_trim_end (s w : string) :
  includes (trim_end s) w = true -> includes s w = true.
Proof.
  intro H. destruct (trim_end_split s) as (tail & Hs & _).
  rewrite Hs. apply includes_app, H.
Qed.

Lemma includes_trim (s w : string) :
  includes (trim s) w = true -> includes s w = true.
Proof. unfold trim. intro H. apply includes_trim_start, includes_trim_end, H. Qed.

(** *** The bytes of a blank text *)

Lemma blank_bytes (s : string) : blank s = true -> all_bytes blank_byte s = true.
Proof.
  pattern s. revert s. apply white_space_cases; unfold blank, blank_byte.
  - intros s Hs Hblank. rewrite trim_start_fixed in Hblank by exact Hs.
    apply String.eqb_eq in Hblank. subst s. reflexivity.
  - intros c rest Hc IH Hblank. rewrite trim_start_byte in Hblank by exact Hc.
    cbn [all_bytes]. rewrite Hc, (IH Hblank). reflexivity.
  - intros c c2 rest Hc Hp IH Hblank.
    rewrite trim_start_pair in Hblank by assumption.
    destruct (white_space_pair_high c c2 Hp) as [H1 H2].
    cbn [all_bytes]. rewrite H1, H2, (IH Hblank), !orb_true_r. reflexivity.
  - intros c c2 c3 rest Hc Hp Ht IH Hblank.
    rewrite trim_start_triple in Hblank by assumption.
    destruct (white_space_triple_high c c2 c3 Ht) as (H1 & H2 & H3).
    cbn [all_bytes]. rewrite H1, H2, H3, (IH Hblank), !orb_true_r. reflexivity.
Qed.

Lemma prefix_all_bytes (p : ascii -> bool) (w x : string) :
  prefix w x = true -> all_bytes p x = true -> all_bytes p w = true.
Proof.
  revert x. induction w as [|k w' IH]; intros x H Hx; [reflexivity|].
  destruct x as [|c rest]; [discriminate|].
  rewrite prefix_cons in H. apply andb_prop in H. destruct H as [Hk Hw'].
  apply Ascii.eqb_eq in Hk. subst c.
  cbn [all_bytes] in *. apply andb_prop in Hx. destruct Hx as [Hc Hrest].
  rewrite Hc, (IH rest Hw' Hrest). reflexivity.
Qed.

Lemma includes_all_bytes (p : ascii -> bool) (s w : string) :
  includes s w = true -> all_bytes p s = true -> all_bytes p w = true.
Proof.
  induction s as [|c rest IH]; intros H Hs.
  - apply includes_empty in H. subst w. reflexivity.
  - apply includes_cons_inv in H. destruct H as [H|H].
    + exact (prefix_all_bytes p w (String c rest) H Hs).
    + cbn [all_bytes] in Hs. apply andb_prop in Hs. apply IH; [exact H|apply Hs].
Qed.

Lemma last_is_cons (p : ascii -> bool) (k k2 : ascii) (w : string) :
  last_is p (String k (String k2 w)) = last_is p (String k2 w).
Proof. reflexivity. Qed.

Lemma all_bytes_last (p : ascii -> bool) (w : string) :
  String.eqb w "" = false -> all_bytes p w = true -> last_is p w = true.
Proof.
  induction w as [|k w' IH]; [discriminate|]. intros _ H.
  cbn [all_bytes] in H. apply andb_prop in H. destruct H as [Hk Hw'].
  destruct w' as [|k2 w'']; [exact Hk|].
  rewrite last_is_cons. apply IH; [reflexivity|exact Hw'].
Qed.

(** A text that holds a word ending with a character that is no white
    space is not blank. *)
Lemma holds_word_not_blank (s w : string) :
  last_is blank_byte w = false -> String.eqb w "" = false ->
  includes s w = true -> blank s = false.
Proof.
  intros Hlast Hne H. destruct (blank s) eqn:E; [|reflexivity].
  apply blank_bytes in E.
  rewrite (all_bytes_last blank_byte w Hne (includes_all_bytes blank_byte s w H E)) in Hlast.
  discriminate.
Qed.

(** *** What was there before trimming is found after *)

Lemma includes_into_trim_start (s w : string) :
  head_is blank_byte w = false -> String.eqb w "" = false ->
  includes s w = true -> includes (trim_start s) w = true.
Proof.
  intros Hhead Hne. destruct w as [|k w']; [discriminate|]. cbn [head_is] in Hhead.
  unfold blank_byte in Hhead. apply orb_false_elim in Hhead. destruct Hhead as [Hws Hhigh].
  pattern s. revert s. apply white_space_cases.
  - intros s Hs. rewrite trim_start_fixed by exact Hs. auto.
  - intros c rest Hc IH H. rewrite trim_start_byte by exact Hc. apply IH.
    apply (includes_word_inv c k rest w'); [|exact H].
    exact (told_apart white_space_byte k c Hws Hc).
  - intros c c2 rest Hc Hp IH H. rewrite trim_start_pair by assumption. apply IH.
    destruct (white_space_pair_high c c2 Hp) as [H1 H2].
    apply includes_word_inv in H; [|exact (told_apart is_high k c Hhigh H1)].
    apply includes_word_inv in H; [|exact (told_apart is_high k c2 Hhigh H2)].
    exact H.
  - intros c c2 c3 rest Hc Hp Ht IH H. rewrite trim_start_triple by assumption. apply IH.
    destruct (white_space_triple_high c c2 c3 Ht) as (H1 & H2 & H3).
    apply includes_word_inv in H; [|exact (told_apart is_high k c Hhigh H1)].
    apply includes_word_inv in H; [|exact (told_apart is_high k c2 Hhigh H2)].
    apply includes_word_inv in H; [|exact (told_apart is_high k c3 Hhigh H3)].
    exact H.
Qed.

Lemma prefix_into_trim_end (w x : string) :
  last_is blank_byte w = false -> String.eqb w "" = false ->
  prefix w x = true -> prefix w (trim_end x) = true.
Proof.
  revert x. induction w as [|k w' IH]; intros x Hlast Hne H; [discriminate|].
  destruct x as [|c rest]; [discriminate|].
  rewrite trim_end_cons
    by (apply holds_word_not_blank with (w := String k w'); auto using includes_prefix).
  rewrite prefix_cons in *. apply andb_prop in H. destruct H as [Hkc Hrest].
  rewrite Hkc. cbn [andb].
  destruct w' as [|k2 w'']; [apply prefix_empty|].
  rewrite last_is_cons in Hlast. apply IH; auto.
Qed.

Lemma includes_into_trim_end (s w : string) :
  last_is blank_byte w = false -> String.eqb w "" = false ->
  includes s w = true -> includes (trim_end s) w = true.
Proof.
  intros Hlast Hne. induction s as [|c rest IH]; [auto|].
  intro H. pose proof (holds_word_not_blank _ w Hlast Hne H) as Hkept.
  apply includes_cons_inv in H. destruct H as [H|H].
  - apply includes_prefix, prefix_into_trim_end; assumption.
  - rewrite trim_end_cons by exact Hkept. apply includes_tail, IH, H.
Qed.

(** *** Closed instances: white space outside ASCII *)

Example trim_drops_no_break_spaces :
  trim (no_break_space ++ "Unit Sales up" ++ no_break_space) = "Unit Sales up"
  /\ trim (no_break_space ++ " " ++ no_break_space) = ""
  /\ trim "  nike  " = "nike".
Proof. repeat split. Qed.

(** The ideographic space U+3000, the byte order mark U+FEFF, the line
    separator U+2028, the em space U+2003 and the Ogham space U+1680 are
    dropped at both ends; a no-break space inside the text stays. *)
Example trim_drops_wide_white_space :
  let before := text_of_bytes [227; 128; 128; 239; 187; 191; 9] in
  let after := text_of_bytes [226; 128; 168; 13; 226; 128; 131; 225; 154; 128] in
  let inside := ("a" ++ no_break_space ++ "b") in
  trim (before ++ inside ++ after) = inside.
Proof. reflexivity. Qed.

(** What is not white space stays: the zero-width space U+200B, the next
    line control U+0085, the Mongolian vowel separator U+180E, and a
    letter outside ASCII at either end. *)
Example trim_keeps_what_is_not_white_space :
  let zero_width := text_of_bytes [226; 128; 139] in
  let next_line := text_of_bytes [194; 133] in
  let vowel_separator := text_of_bytes [225; 160; 142] in
  let e_acute := text_of_bytes [195; 169] in
  trim zero_width = zero_width
  /\ trim next_line = next_line
  /\ trim vowel_separator = vowel_separator
  /\ trim (" " ++ e_acute ++ "t" ++ e_acute ++ " ") = e_acute ++ "t" ++ e_acute.
Proof. repeat split. Qed.

End TextFacts.

(** ** The insights panel: [parseInsights] *)

Module InsightsSpec.

Import JS InsightsPanel TextFacts.
Local Open Scope string_scope.
Local Open Scope list_scope.

(** *** No pair of asterisks survives the cleaning *)

Lemma remove_bold_step (c c2 : ascii) (rest : string) :
  remove_bold (String c (String c2 rest))
  = if Ascii.eqb c "*" && Ascii.eqb c2 "*" then remove_bold rest
    else String c (remove_bold (String c2 rest)).
Proof. reflexivity. Qed.





Lemma includes_bold_inv (c : ascii) (s : string) :
  includes (String c s) "**" = false ->
  (is_star c && head_is is_star s = false) /\ includes s "**" = false.
Proof. rewrite includes_bold_cons. apply orb_false_elim. Qed.






(** *** The loop as two filters *)

Lemma classify_fold (lines : list string) (acc : Parsed) :
  fold_left classify lines acc
  = {| metrics := metrics acc ++ filter is_metric (map cleanLine lines);
       recommendations :=
         recommendations acc ++ filter only_recommendation (map cleanLine lines) |}.
Proof.
  revert acc. induction lines as [|line lines IH]; intro acc.
  - cbn. rewrite !app_nil_r. destruct acc; reflexivity.
  - cbn [fold_left map filter]. rewrite IH. unfold classify, only_recommendation.
    destruct (is_metric (cleanLine line)); cbn [metrics recommendations negb andb].
    + rewrite <- app_assoc. reflexivity.
    + destruct (is_recommendation (cleanLine line)); cbn [metrics recommendations].
      * rewrite <- app_assoc. reflexivity.
      * reflexivity.
Qed.

Lemma parseInsights_filters (text : string) :
  parseInsights text
  = {| metrics := filter is_metric (map cleanLine (kept_lines text));
       recommendations :=
         filter only_recommendation (map cleanLine (kept_lines text)) |}.
Proof. unfold parseInsights. rewrite classify_fold. reflexivity. Qed.

Lemma filter_none {A} (p : A -> bool) (l : list A) :
  (forall x, In x l -> p x = false) -> filter p l = [].
Proof.
  induction l as [|x l IH]; intro H; [reflexivity|].
  cbn [filter]. rewrite (H x (or_introl eq_refl)). apply IH.
  intros y Hy. apply H. right. exact Hy.
Qed.

Lemma filter_two_length {A} (p q : A -> bool) (l : list A) :
  (forall x, p x = true -> q x = false) ->
  List.length (filter p l) + List.length (filter q l) <= List.length l.
Proof.
  intro Hpq. induction l as [|x l IH]; [reflexivity|].
  cbn [filter]. destruct (p x) eqn:Hp.
  - rewrite (Hpq x Hp). cbn [List.length]. lia.
  - destruct (q x); cbn [List.length]; lia.
Qed.

(** *** Words found after the cleaning were in the text *)

Lemma prefix_clean_colon (w x : string) :
  includes w ":" = false -> prefix w (clean_colon x) = prefix w x.
Proof.
  revert x. induction w as [|k w' IH]; intros x Hw.
  - rewrite !prefix_empty. reflexivity.
  - rewrite includes_cons, prefix_cons, prefix_empty, andb_true_r in Hw.
    apply orb_false_elim in Hw. destruct Hw as [Hk Hw'].
    destruct x as [|c rest]; [reflexivity|].
    cbn [clean_colon]. destruct (Ascii.eqb c ":") eqn:Hc.
    + apply Ascii.eqb_eq in Hc. subst c.
      change (": " ++ trim_start rest)%string
        with (String ":" (String " " (trim_start rest))).
      rewrite !prefix_cons, (Ascii.eqb_sym k ":"), Hk. reflexivity.
    + rewrite !prefix_cons, (IH rest Hw'). reflexivity.
Qed.

Lemma includes_clean_colon (s w : string) :
  plain_word w = true ->
  includes (clean_colon s) w = true -> includes s w = true.
Proof.
  unfold plain_word. intro Hw.
  apply andb_prop in Hw. destruct Hw as [Hw Hne].
  apply andb_prop in Hw. destruct Hw as [Hcolon Hspace].
  apply negb_true_iff in Hcolon, Hspace, Hne.
  destruct w as [|k w']; [discriminate|]. clear Hne. cbn [head_is] in Hspace.
  assert (Hk : Ascii.eqb k ":" = false).
  { rewrite includes_cons, prefix_cons, prefix_empty, andb_true_r in Hcolon.
    apply orb_false_elim in Hcolon. rewrite Ascii.eqb_sym. apply Hcolon. }
  induction s as [|c rest IH]; [auto|].
  cbn [clean_colon]. destruct (Ascii.eqb c ":") eqn:Hc.
  - change (": " ++ trim_start rest)%string
      with (String ":" (String " " (trim_start rest))).
    intro H. rewrite !includes_cons, !prefix_cons, Hk, Hspace in H.
    cbn [andb orb] in H. apply includes_tail, includes_trim_start, H.
  - intro H. apply includes_cons_inv in H. destruct H as [H|H].
    + apply includes_prefix.
      rewrite <- (prefix_clean_colon (String k w') (String c rest) Hcolon).
      cbn [clean_colon]. rewrite Hc. exact H.
    + apply includes_tail, IH, H.
Qed.

Lemma includes_strip_bullets (s w : string) :
  includes (strip_bullets s) w = true -> includes s w = true.
Proof.
  pattern s. revert s. apply shorter_first. intros s IH.
  destruct s as [|c rest]; [auto|]. cbn [strip_bullets].
  destruct (_ || _).
  { intro H. apply includes_tail, IH; [cbn [String.length]; lia|exact H]. }
  destruct rest as [|c2 rest2]; [auto|].
  destruct (white_space_pair c c2).
  { intro H. do 2 apply includes_tail. apply IH; [cbn [String.length]; lia|exact H]. }
  destruct rest2 as [|c3 rest3]; [auto|].
  destruct (_ || _); [|auto].
  intro H. do 3 apply includes_tail. apply IH; [cbn [String.length]; lia|exact H].
Qed.

Lemma remove_bold_id_upto (n : nat) (s : string) :
  String.length s <= n -> includes s "**" = false -> remove_bold s = s.
Proof.
  revert s. induction n as [|n IH]; intros s Hlen H.
  - destruct s; [reflexivity|cbn in Hlen; lia].
  - destruct s as [|c [|c2 rest]]; [reflexivity|reflexivity|].
    cbn [String.length] in Hlen.
    apply includes_bold_inv in H. destruct H as [Hhead Hrest].
    rewrite remove_bold_step. cbn [head_is] in Hhead. unfold is_star in Hhead.
    rewrite Hhead. rewrite IH; [reflexivity| |exact Hrest].
    cbn [String.length]. lia.
Qed.

Lemma remove_bold_id (s : string) : includes s "**" = false -> remove_bold s = s.
Proof. apply remove_bold_id_upto with (n := String.length s). lia. Qed.

(** [split_lines] never gives the empty list, and its first piece starts
    the text. *)
Lemma split_lines_cons (x : string) : exists l ls, split_lines x = l :: ls.
Proof.
  induction x as [|c rest (l & ls & IH)]; [cbn; eauto|].
  cbn [split_lines]. destruct (Ascii.eqb c (ascii_of_nat 10)); [eauto|].
  rewrite IH. eauto.
Qed.

Lemma prefix_first_line (w x l : string) (ls : list string) :
  split_lines x = l :: ls -> prefix w l = true -> prefix w x = true.
Proof.
  revert x l ls. induction w as [|k w' IH]; intros x l ls Hx H; [apply prefix_empty|].
  destruct x as [|c rest].
  - cbn in Hx. injection Hx as <- _. exact H.
  - cbn [split_lines] in Hx. destruct (Ascii.eqb c (ascii_of_nat 10)).
    + injection Hx as <- _. discriminate.
    + destruct (split_lines_cons rest) as (l' & ls' & Hrest). rewrite Hrest in Hx.
      injection Hx as <- _. rewrite prefix_cons in H.
      apply andb_prop in H. destruct H as [Hk Hw'].
      rewrite prefix_cons, Hk. cbn [andb]. exact (IH rest l' ls' Hrest Hw').
Qed.

Lemma includes_line (x line w : string) :
  In line (split_lines x) -> includes line w = true -> includes x w = true.
Proof.
  revert line. induction x as [|c rest IH]; intros line Hin H.
  - cbn in Hin. destruct Hin as [<-|[]]. exact H.
  - cbn [split_lines] in Hin. destruct (Ascii.eqb c (ascii_of_nat 10)).
    + destruct Hin as [<-|Hin].
      * apply includes_empty in H. subst w. apply includes_of_empty.
      * apply includes_tail. exact (IH line Hin H).
    + destruct (split_lines_cons rest) as (l' & ls' & Hrest). rewrite Hrest in Hin.
      destruct Hin as [<-|Hin].
      * apply includes_cons_inv in H. destruct H as [H|H].
        -- apply includes_prefix. destruct w as [|k w']; [apply prefix_empty|].
           rewrite prefix_cons in H. apply andb_prop in H. destruct H as [Hk Hw'].
           rewrite prefix_cons, Hk. cbn [andb].
           exact (prefix_first_line w' rest Hrest Hw').
        -- apply includes_tail. apply (IH l'); [rewrite Hrest; left; reflexivity|exact H].
      * apply includes_tail. apply (IH line); [rewrite Hrest; right; exact Hin|exact H].
Qed.

(** A word found in a cleaned line of a text without pairs of asterisks
    was in the text. *)
Lemma includes_cleanLine (text line w : string) :
  includes text "**" = false ->
  plain_word w = true ->
  In line (split_lines text) ->
  includes (cleanLine line) w = true -> includes text w = true.
Proof.
  intros Hbold Hw Hin H.
  assert (Hline : includes line "**" = false).
  { destruct (includes line "**") eqn:E; [|reflexivity].
    rewrite (includes_line text line "**" Hin E) in Hbold. discriminate. }
  assert (Hstrip : includes (strip_bullets line) "**" = false).
  { destruct (includes (strip_bullets line) "**") eqn:E; [|reflexivity].
    apply includes_strip_bullets in E. congruence. }
  unfold cleanLine in H. rewrite (remove_bold_id _ Hstrip) in H.
  apply includes_trim, (includes_clean_colon _ _ Hw), includes_strip_bullets in H.
  exact (includes_line text line w Hin H).
Qed.

(** X1. [parseInsights] sorts the cleaned lines into two lists that keep
    the order of the text: the metrics are the cleaned non-blank lines
    that mention Revenue Growth, Unit Sales or Price Point; the
    recommendations are those that mention Recommendation and none of
    the three.  A line that mentions both is a metric only, no line is
    listed twice, and the two lists together are no longer than the
    non-blank lines. *)
Theorem parseInsights_partitions (text : string) :
  let parsed := parseInsights text in
  let cleaned := map cleanLine (kept_lines text) in
  metrics parsed = filter is_metric cleaned
  /\ recommendations parsed = filter only_recommendation cleaned
  /\ Forall (fun m => is_metric m = true) (metrics parsed)
  /\ Forall (fun r => is_recommendation r = true /\ is_metric r = false)
            (recommendations parsed)
  /\ List.length (metrics parsed) + List.length (recommendations parsed)
     <= List.length (kept_lines text).
Proof.
  intros parsed cleaned. subst parsed. rewrite parseInsights_filters.
  cbn [metrics recommendations]. fold cleaned.
  split; [reflexivity|]. split; [reflexivity|]. split; [|split].
  - apply Forall_forall. intros m Hm. apply filter_In in Hm. apply Hm.
  - apply Forall_forall. intros r Hr. apply filter_In in Hr. destruct Hr as [_ Hr].
    unfold only_recommendation in Hr. apply andb_prop in Hr. destruct Hr as [Hm Hr].
    apply negb_true_iff in Hm. auto.
  - rewrite <- (length_map cleanLine (kept_lines text)). fold cleaned.
    apply filter_two_length. intros x Hx. unfold only_recommendation.
    rewrite Hx. reflexivity.
Qed.


(** X3. A text that holds no pair of asterisks and mentions none of the
    four words is sorted into nothing: both lists are empty and the panel
    shows the raw text.  (Without the first condition the conclusion can
    fail: dropping a pair of asterisks can assemble a word, see
    [bold_markers_can_assemble_a_word].) *)
Theorem plain_text_is_shown_raw (text : string) :
  includes text "**" = false ->
  includes text "Revenue Growth" = false ->
  includes text "Unit Sales" = false ->
  includes text "Price Point" = false ->
  includes text "Recommendation" = false ->
  parseInsights text = {| metrics := []; recommendations := [] |}
  /\ shows_raw_text text = true.
Proof.
  intros Hbold H1 H2 H3 H4.
  assert (Hnone : forall line, In line (kept_lines text) ->
            is_metric (cleanLine line) = false
            /\ is_recommendation (cleanLine line) = false).
  { intros line Hin. apply filter_In in Hin. destruct Hin as [Hin _].
    assert (Hw : forall w, plain_word w = true -> includes text w = false ->
                           includes (cleanLine line) w = false).
    { intros w Hw Htext. destruct (includes (cleanLine line) w) eqn:E; [|reflexivity].
      rewrite (includes_cleanLine text line w Hbold Hw Hin E) in Htext. discriminate. }
    unfold is_metric, is_recommendation.
    rewrite !Hw by (reflexivity || assumption). split; reflexivity. }
  assert (Hparsed : parseInsights text = {| metrics := []; recommendations := [] |}).
  { rewrite parseInsights_filters.
    rewrite !filter_none; [reflexivity| |].
    - intros c Hc. apply in_map_iff in Hc. destruct Hc as (line & <- & Hin).
      unfold only_recommendation. rewrite (proj2 (Hnone line Hin)).
      apply andb_false_r.
    - intros c Hc. apply in_map_iff in Hc. destruct Hc as (line & <- & Hin).
      apply Hnone, Hin. }
  split; [exact Hparsed|]. unfold shows_raw_text. rewrite Hparsed. reflexivity.
Qed.

(** *** Words of the text are found after the cleaning *)

Lemma includes_char_cons (k c : ascii) (w : string) :
  includes (String k w) (String c EmptyString) = Ascii.eqb c k || includes w (String c EmptyString).
Proof. rewrite includes_cons, prefix_cons, prefix_empty, andb_true_r. reflexivity. Qed.

Lemma includes_into_strip (s w : string) :
  head_is (fun c => is_marker c || is_high c) w = false ->
  String.eqb w "" = false ->
  includes s w = true -> includes (strip_bullets s) w = true.
Proof.
  intros Hhead Hne. destruct w as [|k w']; [discriminate|]. cbn [head_is] in Hhead.
  apply orb_false_elim in Hhead. destruct Hhead as [Hmark Hhigh].
  pattern s. revert s. apply shorter_first. intros s IH.
  destruct s as [|c rest]; [auto|]. cbn [strip_bullets].
  fold (is_marker c). destruct (is_marker c) eqn:Hc.
  { intro H. apply IH; [cbn [String.length]; lia|].
    apply (includes_word_inv c k rest w'); [|exact H].
    exact (told_apart is_marker k c Hmark Hc). }
  destruct rest as [|c2 rest2]; [auto|].
  destruct (white_space_pair c c2) eqn:Hp.
  { intro H. apply IH; [cbn [String.length]; lia|].
    destruct (white_space_pair_high c c2 Hp) as [H1 H2].
    apply includes_word_inv in H; [|exact (told_apart is_high k c Hhigh H1)].
    apply includes_word_inv in H; [|exact (told_apart is_high k c2 Hhigh H2)].
    exact H. }
  destruct rest2 as [|c3 rest3]; [auto|].
  destruct (is_bullet c c2 c3 || white_space_triple c c2 c3) eqn:Ht; [|auto].
  assert (Hbytes : is_high c = true /\ is_high c2 = true /\ is_high c3 = true).
  { apply orb_prop in Ht. destruct Ht as [Ht|Ht];
      [exact (is_bullet_high c c2 c3 Ht)|exact (white_space_triple_high c c2 c3 Ht)]. }
  destruct Hbytes as (H1 & H2 & H3).
  intro H. apply IH; [cbn [String.length]; lia|].
  apply includes_word_inv in H; [|exact (told_apart is_high k c Hhigh H1)].
  apply includes_word_inv in H; [|exact (told_apart is_high k c2 Hhigh H2)].
  apply includes_word_inv in H; [|exact (told_apart is_high k c3 Hhigh H3)].
  exact H.
Qed.

Lemma remove_bold_not_star (c : ascii) (rest : string) :
  Ascii.eqb c "*" = false -> remove_bold (String c rest) = String c (remove_bold rest).
Proof.
  intro Hc. destruct rest as [|c2 rest']; [reflexivity|].
  rewrite remove_bold_step, Hc. reflexivity.
Qed.

Lemma prefix_into_remove_bold (w x : string) :
  includes w "*" = false -> prefix w x = true -> prefix w (remove_bold x) = true.
Proof.
  revert x. induction w as [|k w' IH]; intros x Hw H; [apply prefix_empty|].
  rewrite includes_char_cons in Hw. apply orb_false_elim in Hw. destruct Hw as [Hk Hw'].
  destruct x as [|c rest]; [discriminate|].
  rewrite prefix_cons in H. apply andb_prop in H. destruct H as [Hkc Hrest].
  apply Ascii.eqb_eq in Hkc. subst c.
  rewrite remove_bold_not_star by (rewrite Ascii.eqb_sym; exact Hk).
  rewrite prefix_cons, Ascii.eqb_refl. cbn [andb]. exact (IH rest Hw' Hrest).
Qed.

Lemma includes_into_remove_bold_upto (n : nat) (s w : string) :
  includes w "*" = false -> String.eqb w "" = false ->
  String.length s <= n ->
  includes s w = true -> includes (remove_bold s) w = true.
Proof.
  intros Hw Hne. destruct w as [|k w']; [discriminate|].
  assert (Hk : Ascii.eqb k "*" = false).
  { rewrite includes_char_cons in Hw. apply orb_false_elim in Hw.
    rewrite Ascii.eqb_sym. apply Hw. }
  revert s. induction n as [|n IH]; intros s Hlen.
  - destruct s; [auto|cbn in Hlen; lia].
  - destruct s as [|c [|c2 rest]]; [auto|auto|].
    cbn [String.length] in Hlen. rewrite remove_bold_step.
    destruct (Ascii.eqb c "*" && Ascii.eqb c2 "*") eqn:Hpair.
    + apply andb_prop in Hpair. destruct Hpair as [Hc Hc2].
      apply Ascii.eqb_eq in Hc, Hc2. subst c c2.
      intro H. apply IH; [lia|].
      apply includes_word_inv in H; [|exact Hk].
      apply includes_word_inv in H; [|exact Hk]. exact H.
    + intro H. apply includes_cons_inv in H. destruct H as [H|H].
      * apply includes_prefix. rewrite prefix_cons in H. apply andb_prop in H.
        destruct H as [Hkc Hrest]. rewrite prefix_cons, Hkc. cbn [andb].
        apply prefix_into_remove_bold; [|exact Hrest].
        rewrite includes_char_cons in Hw. apply orb_false_elim in Hw. apply Hw.
      * apply includes_tail, IH; [cbn [String.length]; lia|exact H].
Qed.

Lemma includes_into_remove_bold (s w : string) :
  includes w "*" = false -> String.eqb w "" = false ->
  includes s w = true -> includes (remove_bold s) w = true.
Proof.
  intros Hw Hne. apply includes_into_remove_bold_upto with (n := String.length s); auto.
Qed.

Lemma includes_into_clean_colon (s w : string) :
  includes w ":" = false ->
  head_is blank_byte w = false -> String.eqb w "" = false ->
  includes s w = true -> includes (clean_colon s) w = true.
Proof.
  intros Hw Hhead Hne.
  induction s as [|c rest IH]; [auto|].
  cbn [clean_colon]. destruct (Ascii.eqb c ":") eqn:Hc.
  - apply Ascii.eqb_eq in Hc. subst c. intro H.
    change (": " ++ trim_start rest)%string
      with (String ":" (String " " (trim_start rest))).
    do 2 apply includes_tail. apply includes_into_trim_start; auto.
    destruct w as [|k w']; [discriminate|].
    apply (includes_word_inv ":" k rest w'); [|exact H].
    rewrite includes_char_cons in Hw. apply orb_false_elim in Hw.
    rewrite Ascii.eqb_sym. apply Hw.
  - intro H. apply includes_cons_inv in H. destruct H as [H|H].
    + apply includes_prefix.
      rewrite <- (prefix_clean_colon w (String c rest) Hw) in H.
      cbn [clean_colon] in H. rewrite Hc in H. exact H.
    + apply includes_tail, IH, H.
Qed.

Lemma prefix_into_first_line (w x l : string) (ls : list string) :
  includes w line_feed = false ->
  split_lines x = l :: ls -> prefix w x = true -> prefix w l = true.
Proof.
  revert x l ls. induction w as [|k w' IH]; intros x l ls Hw Hx H; [apply prefix_empty|].
  unfold line_feed in Hw. rewrite includes_char_cons in Hw.
  apply orb_false_elim in Hw. destruct Hw as [Hk Hw'].
  destruct x as [|c rest]; [discriminate|].
  rewrite prefix_cons in H. apply andb_prop in H. destruct H as [Hkc Hrest].
  apply Ascii.eqb_eq in Hkc. subst c.
  cbn [split_lines] in Hx. rewrite Ascii.eqb_sym, Hk in Hx.
  destruct (split_lines_cons rest) as (l' & ls' & Hsplit). rewrite Hsplit in Hx.
  injection Hx as <- _. rewrite prefix_cons, Ascii.eqb_refl. cbn [andb].
  exact (IH rest l' ls' Hw' Hsplit Hrest).
Qed.

Lemma includes_some_line (x w : string) :
  includes w line_feed = false -> String.eqb w "" = false ->
  includes x w = true ->
  exists line, In line (split_lines x) /\ includes line w = true.
Proof.
  intros Hw Hne. induction x as [|c rest IH]; intro H.
  - apply includes_empty in H. subst w. discriminate.
  - destruct (split_lines_cons rest) as (l' & ls' & Hsplit).
    apply includes_cons_inv in H. destruct H as [H|H].
    + destruct w as [|k w']; [discriminate|].
      pose proof H as Hp. rewrite prefix_cons in Hp. apply andb_prop in Hp.
      destruct Hp as [Hkc Hrest]. apply Ascii.eqb_eq in Hkc. subst c.
      pose proof Hw as Hk. unfold line_feed in Hk. rewrite includes_char_cons in Hk.
      apply orb_false_elim in Hk. destruct Hk as [Hk Hw'].
      cbn [split_lines]. rewrite Ascii.eqb_sym, Hk, Hsplit.
      exists (String k l'). split; [left; reflexivity|].
      apply includes_prefix. rewrite prefix_cons, Ascii.eqb_refl. cbn [andb].
      exact (prefix_into_first_line w' rest Hw' Hsplit Hrest).
    + destruct (IH H) as (line & Hin & Hline). rewrite Hsplit in Hin.
      cbn [split_lines]. rewrite Hsplit.
      destruct (Ascii.eqb c (ascii_of_nat 10)).
      * exists line. split; [right; exact Hin|exact Hline].
      * destruct Hin as [<-|Hin].
        -- exists (String c l'). split; [left; reflexivity|].
           apply includes_tail, Hline.
        -- exists line. split; [right; exact Hin|exact Hline].
Qed.

Lemma sturdy_word_parts (w : string) :
  sturdy_word w = true ->
  String.eqb w "" = false
  /\ includes w "*" = false /\ includes w ":" = false
  /\ includes w line_feed = false
  /\ head_is (fun c => is_marker c || is_high c) w = false
  /\ head_is blank_byte w = false
  /\ last_is blank_byte w = false.
Proof.
  unfold sturdy_word. intro H.
  repeat (apply andb_prop in H; destruct H as [H ?]).
  repeat match goal with Hn : negb _ = true |- _ => apply negb_true_iff in Hn end.
  repeat split; try assumption.
  destruct w as [|k w']; [reflexivity|]. cbn [head_is] in *.
  match goal with Hh : is_marker k || is_high k = false |- _ =>
    apply orb_false_elim in Hh; destruct Hh as [Hm Hhigh] end.
  unfold is_marker in Hm. apply orb_false_elim in Hm. destruct Hm as [_ Hm].
  unfold blank_byte. rewrite Hm, Hhigh. reflexivity.
Qed.

(** A sturdy word of the text is in a kept line, and still there after
    the cleaning. *)
Lemma sturdy_word_survives (text w : string) :
  sturdy_word w = true ->
  includes text w = true ->
  exists line, In line (kept_lines text) /\ includes (cleanLine line) w = true.
Proof.
  intros Hw H.
  destruct (sturdy_word_parts w Hw) as (Hne & Hstar & Hcolon & Hlf & Hhead & Hws & Hlast).
  destruct (includes_some_line text w Hlf Hne H) as (line & Hin & Hline).
  assert (Hclean : includes (cleanLine line) w = true).
  { unfold cleanLine, trim.
    apply includes_into_trim_end; auto.
    apply includes_into_trim_start; auto.
    apply includes_into_clean_colon; auto.
    apply includes_into_remove_bold; auto.
    apply includes_into_strip; auto. }
  exists line. split; [|exact Hclean].
  apply filter_In. split; [exact Hin|].
  apply negb_true_iff. apply String.eqb_neq. intro Hblank.
  assert (Ht : includes (trim line) w = true).
  { unfold trim. apply includes_into_trim_end; auto.
    apply includes_into_trim_start; auto. }
  rewrite Hblank in Ht. apply includes_empty in Ht. subst w. discriminate.
Qed.

Lemma listed_not_raw (text : string) :
  metrics (parseInsights text) <> [] \/ recommendations (parseInsights text) <> [] ->
  shows_raw_text text = false.
Proof.
  unfold shows_raw_text.
  destruct (metrics (parseInsights text)), (recommendations (parseInsights text));
    intros [H|H]; congruence.
Qed.

(** X4. A text that mentions Revenue Growth, Unit Sales or Price Point
    anywhere gets at least one metric, and a text that mentions any of
    the four words is never shown raw: the cleaning cannot break these
    words, wherever bullets, asterisks, colons and white space stand
    around them. *)
Theorem mentioned_words_are_listed (text : string) :
  (is_metric text = true -> metrics (parseInsights text) <> [])
  /\ (is_metric text = true \/ is_recommendation text = true ->
      shows_raw_text text = false).
Proof.
  assert (Hmetric : is_metric text = true -> metrics (parseInsights text) <> []).
  { unfold is_metric at 1. intro H.
    assert (Hline : exists line, In line (kept_lines text)
                                 /\ is_metric (cleanLine line) = true).
    { apply orb_prop in H. destruct H as [H|H]; [apply orb_prop in H; destruct H as [H|H]|];
        (apply sturdy_word_survives in H; [|reflexivity]);
        destruct H as (line & Hin & Hw); exists line; (split; [exact Hin|]);
        unfold is_metric; rewrite Hw; cbn; rewrite ?orb_true_r; reflexivity. }
    destruct Hline as (line & Hin & Hm).
    rewrite parseInsights_filters. cbn [metrics]. intro Hnil.
    assert (Hc : In (cleanLine line) (filter is_metric (map cleanLine (kept_lines text)))).
    { apply filter_In. split; [apply in_map, Hin|exact Hm]. }
    rewrite Hnil in Hc. destruct Hc. }
  split; [exact Hmetric|].
  intros [H|H]; apply listed_not_raw; [left; apply Hmetric, H|].
  unfold is_recommendation in H. apply sturdy_word_survives in H; [|reflexivity].
  destruct H as (line & Hin & Hw).
  rewrite parseInsights_filters. cbn [metrics recommendations].
  destruct (is_metric (cleanLine line)) eqn:Hm.
  - left. intro Hnil.
    assert (Hc : In (cleanLine line) (filter is_metric (map cleanLine (kept_lines text)))).
    { apply filter_In. split; [apply in_map, Hin|exact Hm]. }
    rewrite Hnil in Hc. destruct Hc.
  - right. intro Hnil.
    assert (Hc : In (cleanLine line)
                    (filter only_recommendation (map cleanLine (kept_lines text)))).
    { apply filter_In. split; [apply in_map, Hin|].
      unfold only_recommendation, is_recommendation. rewrite Hm, Hw. reflexivity. }
    rewrite Hnil in Hc. destruct Hc.
Qed.

(** *** Closed instances *)

Example parseInsights_sample :
  parseInsights sample_insights
  = {| metrics := ["Revenue Growth: 12% over the period";
                   "Recommendation: watch the Price Point"];
       recommendations := ["Recommendation: bundle with socks"] |}.
Proof. reflexivity. Qed.


(** X3, instance. *)
Lemma plain_text_is_shown_raw_witness :
  includes "Sales are steady." "**" = false
  /\ shows_raw_text "Sales are steady." = true.
Proof.
  split; [reflexivity|].
  exact (proj2 (plain_text_is_shown_raw "Sales are steady."
                  eq_refl eq_refl eq_refl eq_refl eq_refl)).
Defined.

(** X4, instance. *)
Lemma mentioned_words_are_listed_witness :
  is_recommendation sample_insights = true
  /\ shows_raw_text sample_insights = false.
Proof.
  split; [reflexivity|].
  exact (proj2 (mentioned_words_are_listed sample_insights) (or_intror eq_refl)).
Defined.

(** White space outside ASCII is cleaned away like the rest. *)
Example no_break_spaces_are_cleaned :
  parseInsights (no_break_space ++ "Unit Sales up" ++ no_break_space)%string
  = {| metrics := ["Unit Sales up"]; recommendations := [] |}
  /\ kept_lines (no_break_space ++ line_feed ++ " ")%string = [].
Proof. split; reflexivity. Qed.

(** Dropping the pairs of asterisks can assemble a word that the text
    does not hold. *)
Example bold_markers_can_assemble_a_word :
  includes "Rev**enue Growth is flat" "Revenue Growth" = false
  /\ parseInsights "Rev**enue Growth is flat"
     = {| metrics := ["Revenue Growth is flat"]; recommendations := [] |}.
Proof. split; reflexivity. Qed.

End InsightsSpec.

(** ** The sales chart and the priority colour *)

Module WidgetsSpec.

Import JS Widgets.
Local Open Scope string_scope.
Local Open Scope list_scope.

Section Chart.

Variable toLocaleDateString : string -> string.

Local Abbreviation chart_from := (Widgets.chart_from toLocaleDateString).
Local Abbreviation chartData := (Widgets.chartData toLocaleDateString).

Lemma chart_from_length (data : SalesData) (ds : list string) (index : nat) :
  List.length (chart_from index ds data) = List.length ds.
Proof.
  revert index. induction ds as [|d ds IH]; intro index; [reflexivity|].
  cbn [Widgets.chart_from List.length]. rewrite IH. reflexivity.
Qed.

Lemma chart_from_nth (data : SalesData) (ds : list string) (index i : nat) (d : string) :
  nth_error ds i = Some d ->
  nth_error (chart_from index ds data) i
  = Some {| date := toLocaleDateString d;
            point_sales := at_index (sales data) (index + i);
            point_units := at_index (units_sold data) (index + i) |}.
Proof.
  revert index i. induction ds as [|d0 ds IH]; intros index i H.
  - destruct i; discriminate.
  - destruct i as [|i].
    + injection H as ->. cbn. rewrite Nat.add_0_r. reflexivity.
    + cbn [Widgets.chart_from nth_error]. cbn [nth_error] in H.
      rewrite (IH (S index) i H). rewrite <- plus_n_Sm. reflexivity.
Qed.

(** X5. The chart has one point per date, whatever the lengths of the
    two series: the point of the [i]-th date holds the [i]-th sales
    figure and the [i]-th units figure, [undefined] where a series is
    too short, and figures past the last date are left out. *)
Theorem chart_has_one_point_per_date (data : SalesData) :
  List.length (chartData data) = List.length (dates data)
  /\ (forall i d,
        nth_error (dates data) i = Some d ->
        nth_error (chartData data) i
        = Some {| date := toLocaleDateString d;
                  point_sales := at_index (sales data) i;
                  point_units := at_index (units_sold data) i |}).
Proof.
  split.
  - apply chart_from_length.
  - intros i d H. exact (chart_from_nth data (dates data) 0 i H).
Qed.

Lemma at_index_is_number (arr : list float) (i : nat) :
  is_number (at_index arr i) = true <-> i < List.length arr.
Proof.
  unfold at_index. rewrite <- nth_error_Some.
  destruct (nth_error arr i); cbn; split; congruence.
Qed.

(** X6. Every point of the chart holds two numbers exactly when both
    series are at least as long as the dates; in particular when the three
    arrays have the same length. *)
Theorem chart_defined_iff_series_long_enough (data : SalesData) :
  forallb point_defined (chartData data) = true
  <-> List.length (dates data) <= List.length (sales data)
      /\ List.length (dates data) <= List.length (units_sold data).
Proof.
  destruct (chart_has_one_point_per_date data) as [Hlen Hnth].
  rewrite forallb_forall. split.
  - intro Hall.
    assert (Hi : forall i, i < List.length (dates data) ->
                   i < List.length (sales data) /\ i < List.length (units_sold data)).
    { intros i Hlt. destruct (nth_error (dates data) i) as [d|] eqn:Hd.
      - specialize (Hnth i d Hd). apply nth_error_In in Hnth. apply Hall in Hnth.
        unfold point_defined in Hnth. cbn in Hnth. apply andb_prop in Hnth.
        destruct Hnth as [Hs Hu]. apply at_index_is_number in Hs, Hu. auto.
      - apply nth_error_None in Hd. lia. }
    destruct (List.length (dates data)) as [|n] eqn:E; [lia|].
    destruct (Hi n) as [Hs Hu]; lia.
  - intros [Hs Hu] p Hp. apply In_nth_error in Hp. destruct Hp as [i Hp].
    assert (Hlt : i < List.length (dates data)).
    { rewrite <- Hlen. apply nth_error_Some. congruence. }
    destruct (nth_error (dates data) i) as [d|] eqn:Hd.
    + rewrite (Hnth i d Hd) in Hp. injection Hp as <-.
      unfold point_defined. cbn.
      rewrite (proj2 (at_index_is_number (sales data) i)) by lia.
      rewrite (proj2 (at_index_is_number (units_sold data) i)) by lia.
      reflexivity.
    + apply nth_error_None in Hd. lia.
Qed.

End Chart.

(** Two sales figures for three dates, the dates left as they are. *)
Example chart_with_a_short_series :
  Widgets.chartData (fun d => d)
    {| sales_product_id := "nike_air_max_270";
       dates := ["2024-01-01"; "2024-01-08"; "2024-01-15"];
       sales := [1200; 1350]%float;
       units_sold := [8; 9; 7; 11]%float |}
  = [ {| date := "2024-01-01"; point_sales := VNumber 1200; point_units := VNumber 8 |};
      {| date := "2024-01-08"; point_sales := VNumber 1350; point_units := VNumber 9 |};
      {| date := "2024-01-15"; point_sales := VUndefined; point_units := VNumber 7 |} ].
Proof. reflexivity. Qed.

(** X7. [getPriorityColor] gives the grey classes exactly for the
    priorities it does not know, and tells the three it knows apart: two
    priorities get the same classes only when they are equal or both
    unknown.  The comparison is exact, so [HIGH] is unknown. *)
Theorem priority_colour_separates_known (p q : string) :
  (getPriorityColor p = "text-gray-600 bg-gray-50 border-gray-200"
   <-> known_priority p = false)
  /\ (getPriorityColor p = getPriorityColor q ->
      p = q \/ (known_priority p = false /\ known_priority q = false)).
Proof.
  unfold getPriorityColor, known_priority. split.
  - destruct (String.eqb p "high"), (String.eqb p "medium"), (String.eqb p "low");
      cbn; split; (reflexivity || discriminate).
  - destruct (String.eqb_spec p "high"), (String.eqb_spec p "medium"),
      (String.eqb_spec p "low"), (String.eqb_spec q "high"),
      (String.eqb_spec q "medium"), (String.eqb_spec q "low");
      subst; cbn; intro H; try discriminate; auto.
Qed.

Example upper_case_priority_is_unknown :
  getPriorityColor "HIGH" = "text-gray-600 bg-gray-50 border-gray-200".
Proof. reflexivity. Qed.

End WidgetsSpec.

(** ** Runs of the page *)

Module PageRuns.

Import JS Home Widgets Runs TextFacts HomeSpec.
Local Open Scope string_scope.
Local Open Scope list_scope.

(** What the continuation of a search does to the state. *)
Lemma search_resume (fetched : settled Response) (s : State) :
  handleSearch_resume fetched s
  = (Normal tt, setLoading false (setSearchResults (search_result fetched) s)).
Proof.
  run_handler. unfold search_result. destruct fetched as [r|e]; [|reflexivity].
  destruct (ok r); cbn [negb].
  - destruct (json r); reflexivity.
  - destruct (text r); reflexivity.
Qed.

(** X8. When a search settles, whichever it was, the handler does not
    reject, [loading] is reset, and the search results become the decoded
    body of the response when its status is 200-299 and the body decodes
    (stored as it came, whatever its shape), and the two mock products in
    every other case; the selected product and the four analytics fields
    are left as they were. *)
Theorem settled_search_stores_body_or_mock
        (w : World) (i : nat) (q : string) (fetched : settled Response) :
  nth_error (searches w) i = Some q ->
  let w' := step w (SearchSettles i fetched) in
  fst (handleSearch_resume fetched (view w)) = Normal tt
  /\ searchResults (view w') = search_result fetched
  /\ loading (view w') = false
  /\ selectedProduct (view w') = selectedProduct (view w)
  /\ analytics (view w') = analytics (view w)
  /\ searches w' = remove_at i (searches w)
  /\ calls w' = calls w.
Proof.
  intros Hi w'. subst w'. cbn [step]. rewrite Hi. cbn [view searches calls].
  rewrite search_resume. cbn. auto 10.
Qed.

Lemma step_keeps_selection (w : World) (e : Event) :
  is_select e = false ->
  selectedProduct (view (step w e)) = selectedProduct (view w).
Proof.
  intro He. destruct e as [q|i fetched|p|i f]; try discriminate; cbn [step].
  - destruct (loading (view w) || String.eqb (trim q) ""); reflexivity.
  - destruct (nth_error (searches w) i); [|reflexivity].
    cbn [view]. rewrite search_resume. reflexivity.
  - destruct (nth_error (selections w) i); [|reflexivity].
    cbn [view]. apply (resume_frame f (view w)).
Qed.

(** X9. The card that is highlighted follows the last click and nothing
    else: after the card of [p] is clicked, and through any searches and
    any settled fetches that follow, a card is highlighted exactly when
    its product has the identifier of [p]. *)
Theorem highlight_follows_last_click
        (w : World) (p q : Product) (events : list Event) :
  forallb (fun e => negb (is_select e)) events = true ->
  isSelected (view (run (step w (Select p)) events)) q
  = String.eqb (product_id p) (product_id q).
Proof.
  intro Hev.
  assert (Hsel : forall w0, selectedProduct (view (run w0 events))
                            = selectedProduct (view w0)).
  { induction events as [|e events IH]; intro w0; [reflexivity|].
    cbn [forallb] in Hev. apply andb_prop in Hev. destruct Hev as [He Hrest].
    apply negb_true_iff in He. cbn [run fold_left].
    change (fold_left step events (step w0 e)) with (run (step w0 e) events).
    rewrite (IH Hrest), (step_keeps_selection w0 e He). reflexivity. }
  unfold isSelected. rewrite Hsel. reflexivity.
Qed.


Lemma step_settled_means_idle (w : World) (e : Event) :
  settled_means_idle w -> settled_means_idle (step w e).
Proof.
  unfold settled_means_idle. intro Hw.
  destruct e as [q|i fetched|p|i f]; cbn [step].
  - destruct (loading (view w) || String.eqb (trim q) ""); [exact Hw|].
    cbn [handleSearch searches]. intros H. apply app_eq_nil in H.
    destruct H as [_ H]. discriminate.
  - destruct (nth_error (searches w) i); [|exact Hw].
    cbn [view]. rewrite search_resume. reflexivity.
  - cbn [handleProductSelect selections]. intros _ H. apply app_eq_nil in H.
    destruct H as [_ H]. discriminate.
  - destruct (nth_error (selections w) i); [|exact Hw].
    cbn [view]. intros _ _. apply (resume_frame f (view w)).
Qed.

(** X11. The spinner cannot stick: in every run of the page from its
    initial state, once no search and no selection is pending any more,
    [loading] is [false]. *)
Theorem nothing_pending_means_not_loading (events : list Event) :
  let w := run start events in
  searches w = [] -> selections w = [] -> loading (view w) = false.
Proof.
  cbn zeta. change (settled_means_idle (run start events)).
  assert (H : forall w0, settled_means_idle w0 -> settled_means_idle (run w0 events)).
  { induction events as [|e events IH]; intros w0 Hw0; [exact Hw0|].
    cbn [run fold_left]. apply IH, step_settled_means_idle, Hw0. }
  apply H. intros _ _. reflexivity.
Qed.

Lemma trim_not_blank (q : string) :
  String.eqb (trim q) "" = false -> trim q <> "" /\ trim (trim q) = trim q.
Proof.
  intro H. split; [apply String.eqb_neq, H|apply trim_idempotent].
Qed.

Lemma step_page_calls (w : World) (e : Event) :
  Forall page_call (calls w) -> Forall page_call (calls (step w e)).
Proof.
  intro Hw. destruct e as [q|i fetched|p|i f]; cbn [step].
  - destruct (loading (view w)); cbn [orb]; [exact Hw|].
    destruct (String.eqb (trim q) "") eqn:Hq; [exact Hw|].
    cbn [handleSearch calls]. apply Forall_app. split; [exact Hw|].
    constructor; [|constructor]. left. exists (trim q).
    destruct (trim_not_blank q Hq). auto.
  - destruct (nth_error (searches w) i); exact Hw.
  - cbn [handleProductSelect calls]. apply Forall_app. split; [exact Hw|].
    apply Forall_forall. intros r Hr. right. exists p. exact Hr.
  - destruct (nth_error (selections w) i); exact Hw.
Qed.

(** X12. In every run of the page from its initial state, each call of
    [fetch] is either a search whose query is not blank and has no white
    space at either end, or one of the four calls for a product whose
    card was clicked.  A blank query is never sent. *)
Theorem page_sends_only_trimmed_searches (events : list Event) :
  Forall page_call (calls (run start events)).
Proof.
  assert (H : forall w0, Forall page_call (calls w0) ->
                         Forall page_call (calls (run w0 events))).
  { induction events as [|e events IH]; intros w0 Hw0; [exact Hw0|].
    cbn [run fold_left]. apply IH, step_page_calls, Hw0. }
  apply H. constructor.
Qed.

(** *** The four calls of a selection *)

Lemma append_cancel_l (a x y : string) : (a ++ x = a ++ y)%string -> x = y.
Proof. induction a as [|c a IH]; cbn; [auto|]. intros [= H]. auto. Qed.

Lemma append_length (a b : string) :
  String.length (a ++ b)%string = String.length a + String.length b.
Proof. induction a as [|c a IH]; cbn; [reflexivity|]. rewrite IH. reflexivity. Qed.

Lemma append_cancel_r (a b x : string) : (a ++ x = b ++ x)%string -> a = b.
Proof.
  revert b. induction a as [|c a IH]; intros [|d b] H.
  - reflexivity.
  - apply (f_equal String.length) in H. cbn in H. rewrite append_length in H. lia.
  - apply (f_equal String.length) in H. cbn in H. rewrite append_length in H. lia.
  - cbn in H. injection H as -> H. f_equal. exact (IH b H).
Qed.

(** When two texts with given endings are equal, one ending ends the
    other. *)
Lemma endings_nest (a b t1 t2 : string) :
  (a ++ t1 = b ++ t2)%string ->
  (exists c, t2 = (c ++ t1)%string) \/ (exists c, t1 = (c ++ t2)%string).
Proof.
  revert b. induction a as [|c a IH]; intros b H.
  - right. exists b. exact H.
  - destruct b as [|d b].
    + left. exists (String c a). symmetry. exact H.
    + cbn in H. injection H as _ H. exact (IH b H).
Qed.

Ltac refute_nested_ending H :=
  let c := fresh "c" in
  destruct H as [c H];
  destruct c as [|? [|? [|? [|? c]]]]; cbn in H; try discriminate H;
  apply (f_equal String.length) in H; cbn in H; rewrite ?append_length in H;
  cbn in H; lia.

(** X13. The four calls of a selection go to four different addresses, and
    the address of each carries the identifier unchanged: a call made for
    one product is made for another only when the two have the same
    identifier. *)
Theorem product_calls_identify_the_product (p q : Product) :
  NoDup (product_requests p)
  /\ (product_requests p = product_requests q <-> product_id p = product_id q)
  /\ (forall r, In r (product_requests p) -> In r (product_requests q) ->
                product_id p = product_id q).
Proof.
  assert (Hsame : forall a b tail,
            GET ("http://localhost:8000/products/" ++ a ++ tail)
            = GET ("http://localhost:8000/products/" ++ b ++ tail) -> a = b).
  { intros a b tail H. injection H as H. exact (append_cancel_r _ _ _ H). }
  assert (Hdiff : forall a b t1 t2,
            GET ("http://localhost:8000/products/" ++ a ++ t1)
            = GET ("http://localhost:8000/products/" ++ b ++ t2) ->
            (exists c, t2 = (c ++ t1)%string) \/ (exists c, t1 = (c ++ t2)%string)).
  { intros a b t1 t2 H. injection H as H. exact (endings_nest _ _ _ _ H). }
  split; [|split].
  - unfold product_requests.
    repeat (apply NoDup_cons;
            [ intro Hin; cbn [In] in Hin;
              repeat (destruct Hin as [Hin|Hin];
                      [ apply Hdiff in Hin; destruct Hin as [Hin|Hin];
                        refute_nested_ending Hin | ]);
              exact Hin | ]).
    apply NoDup_nil.
  - split.
    + unfold product_requests. intros [= H _ _ _].
      exact (append_cancel_r _ _ _ H).
    + unfold product_requests. intros ->. reflexivity.
  - unfold product_requests. cbn [In]. intros r Hp Hq.
    destruct Hp as [<-|[<-|[<-|[<-|[]]]]];
      destruct Hq as [Hq|[Hq|[Hq|[Hq|[]]]]];
      first [ symmetry; exact (Hsame _ _ _ Hq)
            | exfalso; apply Hdiff in Hq; destruct Hq as [Hq|Hq];
              refute_nested_ending Hq ].
Qed.

(** *** Closed instances *)

(** X8, instance: a search answered with the empty list. *)
Lemma settled_search_stores_body_or_mock_witness :
  let body := VArray [] in
  let fetched := json_response "[]" body in
  let w := run start [Submit "  nike  "] in
  nth_error (searches w) 0 = Some "nike"
  /\ searchResults (view (step w (SearchSettles 0 fetched))) = body.
Proof.
  intros body fetched w.
  assert (Hi : nth_error (searches w) 0 = Some "nike") by reflexivity.
  split; [exact Hi|].
  exact (proj1 (proj2 (settled_search_stores_body_or_mock w 0 fetched Hi))).
Defined.

(** X9, instance: nike is clicked, then its run settles. *)
Lemma highlight_follows_last_click_witness :
  let events := [SelectionSettles 0 (answers_for (product_id nike))] in
  forallb (fun e => negb (is_select e)) events = true
  /\ isSelected (view (run (step start (Select nike)) events)) nike = true
  /\ isSelected (view (run (step start (Select nike)) events)) adidas = false.
Proof.
  intro events.
  assert (Hev : forallb (fun e => negb (is_select e)) events = true) by reflexivity.
  split; [exact Hev|]. split.
  - rewrite (highlight_follows_last_click start nike nike events Hev). reflexivity.
  - rewrite (highlight_follows_last_click start nike adidas events Hev). reflexivity.
Defined.


(** X11, instance: a failed search and a selection, both settled. *)
Lemma nothing_pending_means_not_loading_witness :
  let events := failed_search
                ++ [Select nike; SelectionSettles 0 (answers_for (product_id nike))] in
  searches (run start events) = []
  /\ selections (run start events) = []
  /\ loading (view (run start events)) = false.
Proof.
  intro events. split; [reflexivity|]. split; [reflexivity|].
  exact (nothing_pending_means_not_loading events eq_refl eq_refl).
Defined.

(** The converse fails: nike is clicked while a search is pending; when
    the search settles, [loading] is off although the run of nike is
    still pending. *)
Example loading_off_with_a_run_pending :
  let w := run start (failed_search
                      ++ [Submit "boots"; Select nike;
                          SearchSettles 0 internal_server_error]) in
  selections w = [nike] /\ loading (view w) = false.
Proof. split; reflexivity. Qed.

(** A query of no-break spaces is blank and is not sent; around a word
    they are trimmed off like the spaces of ASCII. *)
Example no_break_spaces_in_a_search :
  calls (run start [Submit no_break_space]) = []
  /\ calls (run start [Submit (no_break_space ++ " nike " ++ no_break_space)%string])
     = [search_request "nike"].
Proof. split; reflexivity. Qed.

End PageRuns.

(** ** Runs of the agent session *)

Module SessionRuns.

Import JS AIAgent Runs TextFacts.
Local Open Scope string_scope.
Local Open Scope list_scope.

Ltac run_agent_handler :=
  unfold handleAgentQuery_resume, loadSuggestions_resume, try_finally, try_catch,
    ebind, lift, set, ret, await.

Section Host.

Variable Number_toString : float -> string.

Local Abbreviation step := (AIAgent.step Number_toString).
Local Abbreviation run := (AIAgent.run Number_toString).

(** What the two continuations do to the state. *)
Lemma query_resume (fetched : settled Response) (s : State) :
  handleAgentQuery_resume Number_toString fetched s
  = (Normal tt,
     setLoading false
       match query_answer Number_toString fetched with
       | Some res => setAgentResponse (Some res) s
       | None => s
       end).
Proof.
  run_agent_handler. unfold query_answer, suggestions_body.
  destruct fetched as [r|e]; [|reflexivity].
  destruct (ok r); [|reflexivity].
  destruct (json r) as [data|e]; [|reflexivity].
  destruct (normalize Number_toString data); reflexivity.
Qed.

Lemma suggestions_resume (fetched : settled Response) (s : State) :
  loadSuggestions_resume fetched s
  = (Normal tt,
     setLoading false
       match suggestions_body fetched with
       | Some data => setSuggestions data s
       | None => s
       end).
Proof.
  run_agent_handler. unfold suggestions_body.
  destruct fetched as [r|e]; [|reflexivity].
  destruct (ok r); [|reflexivity].
  destruct (json r); reflexivity.
Qed.

Lemma session_settle_at (w : World) (i : nat) (h : Handler) (r : Request)
      (fetched : settled Response) :
  nth_error (in_flight w) i = Some (h, r) ->
  step w (Settle i fetched)
  = {| productId := productId w;
       state := snd (match h with
                     | AgentQuery => handleAgentQuery_resume Number_toString fetched
                     | Suggestions => loadSuggestions_resume fetched
                     end (state w));
       calls := calls w;
       in_flight := remove_at i (in_flight w) |}.
Proof. intro H. cbn [AIAgent.step]. rewrite H. reflexivity. Qed.

(** X14. An answer to a query replaces the displayed one only when the
    response has a status in 200-299, its body decodes and the normaliser
    gives a record; a network failure, any other status, a body that is
    not JSON or a body on which the normaliser throws leaves the
    displayed answer as it was and is not reported.  In every case
    [loading] is reset, and the query text, the suggestions and the tab
    are untouched. *)
Theorem settled_query_replaces_answer_or_keeps_it
        (w : World) (i : nat) (r : Request) (fetched : settled Response) :
  nth_error (in_flight w) i = Some (AgentQuery, r) ->
  let s' := state (step w (Settle i fetched)) in
  agentResponse s'
  = match query_answer Number_toString fetched with
    | Some res => Some res
    | None => agentResponse (state w)
    end
  /\ loading s' = false
  /\ query s' = query (state w)
  /\ suggestions s' = suggestions (state w)
  /\ activeTab s' = activeTab (state w).
Proof.
  intros Hi s'. subst s'. rewrite (session_settle_at w i fetched Hi). cbn [state].
  rewrite query_resume. cbn [snd].
  destruct (query_answer Number_toString fetched); cbn; auto.
Qed.

(** X15. The body of a suggestions response with a status in 200-299 is
    stored as it came, whatever its shape; in every other case the stored
    suggestions stay as they were.  In every case [loading] is reset and
    the displayed answer is untouched. *)
Theorem settled_suggestions_store_body_or_keep
        (w : World) (i : nat) (r : Request) (fetched : settled Response) :
  nth_error (in_flight w) i = Some (Suggestions, r) ->
  let s' := state (step w (Settle i fetched)) in
  suggestions s'
  = match suggestions_body fetched with
    | Some data => data
    | None => suggestions (state w)
    end
  /\ loading s' = false
  /\ agentResponse s' = agentResponse (state w)
  /\ query s' = query (state w)
  /\ activeTab s' = activeTab (state w).
Proof.
  intros Hi s'. subst s'. rewrite (session_settle_at w i fetched Hi). cbn [state].
  rewrite suggestions_resume. cbn [snd].
  destruct (suggestions_body fetched); cbn; auto.
Qed.

Lemma step_session_idle (w : World) (e : Event) :
  session_idle w -> session_idle (step w e).
Proof.
  unfold session_idle. intro Hw.
  assert (Hquery : in_flight (handleAgentQuery w) = [] ->
                   loading (state (handleAgentQuery w)) = false).
  { unfold handleAgentQuery. destruct (String.eqb _ ""); [exact Hw|].
    cbn [in_flight]. intro H. apply app_eq_nil in H. destruct H as [_ H]. discriminate. }
  destruct e as [q| | | | |i fetched|p]; cbn [AIAgent.step].
  - destruct (activeTab (state w)); exact Hw.
  - destruct (activeTab (state w)); [exact Hquery|exact Hw].
  - destruct (activeTab (state w)); [|exact Hw].
    destruct (send_disabled (state w)); [exact Hw|exact Hquery].
  - exact Hw.
  - destruct (to_boolean (suggestions (state w))); [exact Hw|].
    cbn [loadSuggestions in_flight]. intro H. apply app_eq_nil in H.
    destruct H as [_ H]. discriminate.
  - destruct (nth_error (in_flight w) i) as [[h r]|]; [|exact Hw].
    cbn [state]. intros _. destruct h.
    + rewrite query_resume. reflexivity.
    + rewrite suggestions_resume. reflexivity.
  - exact Hw.
Qed.

(** X16. In every run of the session from its mounting, once no request is
    pending any more, [loading] is [false]. *)
Theorem no_request_pending_means_session_idle (p : string) (events : list Event) :
  in_flight (run (mount p) events) = [] ->
  loading (state (run (mount p) events)) = false.
Proof.
  change (session_idle (run (mount p) events)).
  assert (H : forall w0, session_idle w0 -> session_idle (run w0 events)).
  { induction events as [|e events IH]; intros w0 Hw0; [exact Hw0|].
    cbn [AIAgent.run fold_left]. apply IH, step_session_idle, Hw0. }
  apply H. intros _. reflexivity.
Qed.

Lemma step_session_calls (w : World) (e : Event) :
  Forall session_call (calls w) -> Forall session_call (calls (step w e)).
Proof.
  intro Hw.
  assert (Hquery : Forall session_call (calls (handleAgentQuery w))).
  { unfold handleAgentQuery.
    destruct (String.eqb (trim (query (state w))) "") eqn:Hq; [exact Hw|].
    cbn [calls]. apply Forall_app. split; [exact Hw|].
    constructor; [|constructor]. left.
    exists (trim (query (state w))), (productId w).
    split; [reflexivity|]. split; [apply String.eqb_neq, Hq|apply trim_idempotent]. }
  destruct e as [q| | | | |i fetched|p]; cbn [AIAgent.step].
  - destruct (activeTab (state w)); exact Hw.
  - destruct (activeTab (state w)); [exact Hquery|exact Hw].
  - destruct (activeTab (state w)); [|exact Hw].
    destruct (send_disabled (state w)); [exact Hw|exact Hquery].
  - exact Hw.
  - destruct (to_boolean (suggestions (state w))); [exact Hw|].
    cbn [loadSuggestions calls]. apply Forall_app. split; [exact Hw|].
    constructor; [|constructor]. right. eauto.
  - destruct (nth_error (in_flight w) i) as [[h r]|]; exact Hw.
  - exact Hw.
Qed.

(** X17. In every run of the session from its mounting, each call of [fetch]
    is either a query that is not blank and has no white space at either
    end, or a request for suggestions.  A blank query is never sent,
    through the button or through the Enter key. *)
Theorem session_sends_only_trimmed_queries (p : string) (events : list Event) :
  Forall session_call (calls (run (mount p) events)).
Proof.
  assert (H : forall w0, Forall session_call (calls w0) ->
                         Forall session_call (calls (run w0 events))).
  { induction events as [|e events IH]; intros w0 Hw0; [exact Hw0|].
    cbn [AIAgent.run fold_left]. apply IH, step_session_calls, Hw0. }
  apply H. constructor.
Qed.

(** X18. Suggestions stored for one product survive a change of product: with
    a truthy result stored, any sequence of clicks on the tabs and of
    changes of [productId] calls [fetch] no more and keeps the result, so
    that the suggestions tab goes on showing what was fetched for the
    earlier product. *)
Theorem stored_suggestions_survive_product_change
        (w : World) (events : list Event) :
  to_boolean (suggestions (state w)) = true ->
  forallb is_tab_or_product events = true ->
  calls (run w events) = calls w
  /\ in_flight (run w events) = in_flight w
  /\ suggestions (state (run w events)) = suggestions (state w).
Proof.
  revert w. induction events as [|e events IH]; intros w Hstored Hev; [cbn; auto|].
  cbn [forallb] in Hev. apply andb_prop in Hev. destruct Hev as [He Hrest].
  cbn [AIAgent.run fold_left].
  change (fold_left (AIAgent.step Number_toString) events (step w e))
    with (run (step w e) events).
  assert (Hstep : calls (step w e) = calls w
                  /\ in_flight (step w e) = in_flight w
                  /\ suggestions (state (step w e)) = suggestions (state w)).
  { destruct e; try discriminate; cbn [AIAgent.step].
    - cbn. auto.
    - rewrite Hstored. cbn. auto.
    - cbn. auto. }
  destruct Hstep as (Hc & Hf & Hs).
  destruct (IH (step w e)) as (Hc' & Hf' & Hs'); [congruence|exact Hrest|].
  repeat split; congruence.
Qed.

(** X19. Normalising is idempotent: the normaliser gives back every record
    unchanged when it is given that record as a body, and so in
    particular its own results. *)
Theorem normalize_is_idempotent (data : value) (res : AgentResponse) :
  normalize Number_toString data = Normal res ->
  normalize Number_toString (response_value res) = Normal res.
Proof. intros _. destruct res. reflexivity. Qed.

End Host.

(** *** Closed instances *)

(** X14, instance: The question asked in [asked] is answered. *)
Lemma settled_query_replaces_answer_or_keeps_it_witness :
  let request := analyze_request "Should I increase the price?" "nike_air_max_270" in
  let answered := AIAgent.step example_engine asked (Settle 0 analysis_answer) in
  nth_error (in_flight asked) 0 = Some (AgentQuery, request)
  /\ agentResponse (state answered)
     = Some {| analysis := "Hold the price"; recommendations := [VString "Wait"];
               confidence := 0.5; next_steps := [] |}
  /\ loading (state answered) = false.
Proof.
  intros request answered.
  assert (Hi : nth_error (in_flight asked) 0 = Some (AgentQuery, request)) by reflexivity.
  destruct (settled_query_replaces_answer_or_keeps_it
              example_engine asked 0 analysis_answer Hi) as (Hanswer & Hloading & _).
  split; [exact Hi|]. split; [exact Hanswer|exact Hloading].
Defined.

(** A second question fails with a 503: the first answer stays. *)
Example failed_query_keeps_the_answer :
  let answered := AIAgent.step example_engine asked (Settle 0 analysis_answer) in
  let again := AIAgent.run example_engine answered
                           [PressEnter; Settle 0 service_unavailable] in
  agentResponse (state again) = agentResponse (state answered)
  /\ loading (state again) = false /\ in_flight again = [].
Proof. repeat split; reflexivity. Qed.

(** X15, instance. *)
Lemma settled_suggestions_store_body_or_keep_witness :
  let w := AIAgent.step example_engine (mount "nike_air_max_270") ClickSuggestions in
  nth_error (in_flight w) 0 = Some (Suggestions, suggestions_request "nike_air_max_270")
  /\ suggestions (state (AIAgent.step example_engine w (Settle 0 suggestions_answer)))
     = VObject [("suggestions", VArray []); ("priority", VString "high")].
Proof.
  intro w.
  assert (Hi : nth_error (in_flight w) 0
               = Some (Suggestions, suggestions_request "nike_air_max_270"))
    by reflexivity.
  split; [exact Hi|].
  exact (proj1 (settled_suggestions_store_body_or_keep
                  example_engine w 0 suggestions_answer Hi)).
Defined.

(** X16, instance. *)
Lemma no_request_pending_means_session_idle_witness :
  let events := [TypeQuery "Should I increase the price?"; PressEnter;
                 ClickSuggestions; Settle 1 suggestions_answer;
                 Settle 0 analysis_answer] in
  in_flight (AIAgent.run example_engine (mount "nike_air_max_270") events) = []
  /\ loading (state (AIAgent.run example_engine (mount "nike_air_max_270") events))
     = false.
Proof.
  intro events. split; [reflexivity|].
  exact (no_request_pending_means_session_idle
           example_engine "nike_air_max_270" events eq_refl).
Defined.

(** X18, instance. *)
Lemma stored_suggestions_survive_product_change_witness :
  let events := [ChangeProduct "adidas_ultraboost_22"; ClickChat; ClickSuggestions] in
  let w := AIAgent.run example_engine suggested events in
  to_boolean (suggestions (state suggested)) = true
  /\ productId w = "adidas_ultraboost_22"
  /\ calls w = [suggestions_request "nike_air_max_270"]
  /\ suggestions (state w) = suggestions (state suggested).
Proof.
  intros events w.
  destruct (stored_suggestions_survive_product_change
              example_engine suggested events eq_refl eq_refl) as (Hcalls & _ & Hkept).
  split; [reflexivity|]. split; [reflexivity|]. split.
  - subst w. rewrite Hcalls. reflexivity.
  - exact Hkept.
Defined.

(** X19, instance. *)
Lemma normalize_is_idempotent_witness :
  let data := VObject [("recommendations", VString "Wait"); ("confidence", VString "high")] in
  let res := {| analysis := ""; recommendations := [VString "Wait"];
                confidence := 0%float; next_steps := [] |} in
  normalize example_engine data = Normal res
  /\ normalize example_engine (response_value res) = Normal res.
Proof.
  intros data res.
  assert (H : normalize example_engine data = Normal res) by reflexivity.
  split; [exact H|].
  exact (normalize_is_idempotent example_engine data H).
Defined.

(** A question of no-break spaces is blank: neither the Enter key nor the
    button sends it.  Around a question they are trimmed off. *)
Example no_break_spaces_in_a_question :
  calls (AIAgent.run example_engine (mount "nike_air_max_270")
           [TypeQuery no_break_space; PressEnter; ClickSend]) = []
  /\ calls (AIAgent.run example_engine (mount "nike_air_max_270")
              [TypeQuery (no_break_space ++ "Why? " ++ no_break_space)%string;
               PressEnter])
     = [analyze_request "Why?" "nike_air_max_270"].
Proof. split; reflexivity. Qed.

End SessionRuns.
